(** * httpsim: request matching, effect application and seeded randomness

    A shallow embedding of github.com/romshark/httpsim:

    - [config]   the configuration types and their [Validate] methods
                 (package config),
    - [rand]     the seeded randomness source (package internal/rand),
    - [httpsim]  [Match], [MatchResource], [apply] and [ServeHTTP]
                 (package httpsim).

    Go values are modelled as follows.  A [string] is a sequence of bytes,
    [len] is [String.length].  [int], [int64] and [time.Duration] are [Z];
    the places where 64-bit arithmetic wraps around are written out with
    [wrap64].  A nil pointer is [None].  A panic is the result [Panic].
    Maps keyed by strings are [gmap]s; the glob maps of the configuration,
    whose keys are pointers, are association lists.  The capabilities the
    package receives from outside (the glob matcher, the response writer,
    the sleeper, the randomness provider) are type classes. *)

From Stdlib Require Import ZArith String Ascii.
From Stdlib.Strings Require Import Byte.
From stdpp Require Import base option list gmap strings.

Open Scope Z_scope.

(** ** Go runtime conventions *)

(** The outcome of running a Go function: a value, a panic, or (only for
    the library loops that are run with fuel) exhausted fuel. *)
Inductive result (A : Type) : Type :=
| Ok (a : A)
| Panic (msg : string)
| OutOfFuel.

Arguments Ok {A} a.
Arguments Panic {A} msg.
Arguments OutOfFuel {A}.

#[global] Instance result_ret : MRet result := fun _ a => Ok a.

#[global] Instance result_bind : MBind result := fun _ _ f r =>
  match r with
  | Ok a => f a
  | Panic msg => Panic msg
  | OutOfFuel => OutOfFuel
  end.

(** Two's-complement wrap-around of a 64-bit signed integer. *)
Definition wrap64 (x : Z) : Z := (x + 2 ^ 63) mod 2 ^ 64 - 2 ^ 63.

Definition MinInt64 : Z := - 2 ^ 63.
Definition MaxInt64 : Z := 2 ^ 63 - 1.

(** [x] is representable as an int64. *)
Definition int64 (x : Z) : Prop := MinInt64 <= x <= MaxInt64.

(** time.Duration counts nanoseconds. *)
Definition Millisecond : Z := 1000000.
Definition Second : Z := 1000 * Millisecond.
Definition Minute : Z := 60 * Second.
Definition Hour : Z := 60 * Minute.

(** The builtin [copy(dst, src)]: overwrite the first
    [min (len dst) (len src)] elements of [dst]. *)
Definition copy {A : Type} (dst src : list A) : list A :=
  take (length dst) src ++ drop (length src) dst.

(** ** The glob capability (github.com/gobwas/glob)

    Compilation of patterns is outside the package; a compiled glob is any
    type with a [Match] method. *)
Class GlobMatcher (Glob : Type) := glob_Match : Glob -> string -> bool.

(** ** Package config *)

Module config.

Section Config.
Context {Glob : Type} {GM : GlobMatcher Glob}.

(** [type GlobExpression struct { glob *glob.Glob }]; the zero value holds
    a nil pointer. *)
Record GlobExpression := { glob : option Glob }.

Definition GlobExpression_zero : GlobExpression := {| glob := None |}.

(** [func (g *GlobExpression) Match(s string) bool] *)
Definition GlobExpression_Match (g : GlobExpression) (s : string) : bool :=
  match glob g with
  | None => true
  | Some gl => glob_Match gl s
  end.

(** [type GlobMap[T any] map[GlobExpression]T].  The keys are compared as
    pointers, so two entries may carry the same pattern: an association
    list, iterated in an unspecified order. *)
Definition GlobMap (T : Type) : Type := list (GlobExpression * T).

Record DurRange := { Min : Z; Max : Z }.

Inductive error := ErrNoEffect | ErrMinGreaterMax.

(** [func (r DurRange) Validate() error]; [None] is the nil error. *)
Definition DurRange_Validate (r : DurRange) : option error :=
  if Max r <? Min r then Some ErrMinGreaterMax else None.

Record Replace := {
  StatusCode : Z;
  Body : option string;
  Headers : gmap string string
}.

Record Effect := {
  Delay : option DurRange;
  Effect_Replace : option Replace
}.

(** [func (e *Effect) Validate() error] *)
Definition Effect_Validate (e : option Effect) : option error :=
  match e with
  | None => None
  | Some e =>
      let noDelay :=
        match Delay e with
        | None => true
        | Some d => Min d =? 0
        end in
      let noReplace :=
        match Effect_Replace e with
        | None => true
        | Some _ => false
        end in
      if noDelay && noReplace then Some ErrNoEffect else None
  end.

Record Resource := {
  Methods : list string;
  Path : GlobExpression;
  Resource_Headers : GlobMap (list GlobExpression);
  Query : GlobMap (list GlobExpression);
  Resource_Effect : option Effect
}.


Record Config := { Resources : list Resource }.

End Config.

Arguments GlobExpression Glob : clear implicits.
Arguments Resource Glob : clear implicits.
Arguments Config Glob : clear implicits.

End config.

(** ** The Go library under package internal/rand

    [rand.go] imports math/rand/v2 and calls [rand.NewChaCha8], [rand.New],
    [Rand.Int64N] and [Rand.IntN].  That code belongs to the Go
    distribution, not to the repository. *)

(** What [rand.go] uses of a [*rand.Rand] whose state has type [G]. *)
Class GoRand (G : Type) := {
  Int64N : Z -> G -> result (Z * G);
  IntN : Z -> G -> result (Z * G)
}.

(** Modelled from the spec: the reference stream construction that the
    pinned fixture values of section 8 come from is Go's internal/chacha8rand
    (ChaCha8 block function, four interlaced blocks per refill), which is
    not among the repository's files.  The generator follows the portable
    implementation of the Go distribution on a little-endian machine. *)
Module chacha8rand.

Definition u32 (x : Z) : Z := x mod 2 ^ 32.
Definition u64 (x : Z) : Z := x mod 2 ^ 64.

(** [x<<k | x>>(32-k)] on uint32. *)
Definition rotl (x k : Z) : Z :=
  u32 (Z.lor (Z.shiftl x k) (Z.shiftr x (32 - k))).

(** The ChaCha quarter round. *)
Definition qr (q : Z * Z * Z * Z) : Z * Z * Z * Z :=
  let '(a, b, c, d) := q in
  let a := u32 (a + b) in
  let d := rotl (Z.lxor d a) 16 in
  let c := u32 (c + d) in
  let b := rotl (Z.lxor b c) 12 in
  let a := u32 (a + b) in
  let d := rotl (Z.lxor d a) 8 in
  let c := u32 (c + d) in
  let b := rotl (Z.lxor b c) 7 in
  (a, b, c, d).

Definition word (l : list Z) (i : nat) : Z := nth i l 0.

(** One iteration of the round loop: four column and four diagonal quarter
    rounds on the sixteen words of one block. *)
Definition double_round (b : list Z) : list Z :=
  let g := word b in
  let '(b0, b4, b8, b12) := qr (g 0, g 4, g 8, g 12)%nat in
  let '(b1, b5, b9, b13) := qr (g 1, g 5, g 9, g 13)%nat in
  let '(b2, b6, b10, b14) := qr (g 2, g 6, g 10, g 14)%nat in
  let '(b3, b7, b11, b15) := qr (g 3, g 7, g 11, g 15)%nat in
  let '(b0, b5, b10, b15) := qr (b0, b5, b10, b15) in
  let '(b1, b6, b11, b12) := qr (b1, b6, b11, b12) in
  let '(b2, b7, b8, b13) := qr (b2, b7, b8, b13) in
  let '(b3, b4, b9, b14) := qr (b3, b4, b9, b14) in
  [b0; b1; b2; b3; b4; b5; b6; b7; b8; b9; b10; b11; b12; b13; b14; b15].

(** [setup]: the sixteen input words of the block in lane [lane]: the
    constants, the eight 32-bit halves of the seed, the block counter and
    three zero words. *)
Definition setup (seed : list Z) (counter lane : Z) : list Z :=
  let s := word seed in
  [0x61707865; 0x3320646e; 0x79622d32; 0x6b206574;
   u32 (s 0%nat); Z.shiftr (s 0%nat) 32; u32 (s 1%nat); Z.shiftr (s 1%nat) 32;
   u32 (s 2%nat); Z.shiftr (s 2%nat) 32; u32 (s 3%nat); Z.shiftr (s 3%nat) 32;
   u32 (counter + lane); 0; 0; 0].

(** Eight rounds; the key words 4..11 are added back, the others are
    stored as they are. *)
Definition block_lane (seed : list Z) (counter lane : Z) : list Z :=
  let b := setup seed counter lane in
  let r := double_round (double_round (double_round (double_round b))) in
  imap (fun i x => if bool_decide (4 <= i < 12)%nat
                   then u32 (word b i + x) else x) r.

(** [block]: the buffer is [[16][4]uint32] (row, lane) read as
    [[32]uint64], least significant half first. *)
Definition block (seed : list Z) (counter : Z) : list Z :=
  let l0 := block_lane seed counter 0 in
  let l1 := block_lane seed counter 1 in
  let l2 := block_lane seed counter 2 in
  let l3 := block_lane seed counter 3 in
  flat_map (fun r => [word l0 r + 2 ^ 32 * word l1 r;
                      word l2 r + 2 ^ 32 * word l3 r]) (seq 0 16).

Definition ctrInc : Z := 4.
Definition ctrMax : Z := 16.
Definition chunk : Z := 32.
Definition reseed : nat := 4.

Record State := {
  buf : list Z;
  seed : list Z;
  i : Z;
  n : Z;
  c : Z
}.

(** [byteorder.LeUint64] *)
Definition LeUint64 (bs : list byte) : Z :=
  foldr (fun b acc => Z.of_N (Byte.to_N b) + 256 * acc) 0 (take 8 bs).

(** [func (s *State) Init(seed [32]byte)] *)
Definition Init (sd : list byte) : State :=
  let seed := [LeUint64 sd; LeUint64 (drop 8 sd);
               LeUint64 (drop 16 sd); LeUint64 (drop 24 sd)] in
  {| buf := block seed 0; seed := seed; i := 0; n := chunk; c := 0 |}.

(** [func (s *State) Next() (uint64, bool)] *)
Definition Next (s : State) : Z * bool * State :=
  if n s <=? i s then (0, false, s)
  else (word (buf s) (Z.to_nat (Z.land (i s) 31)), true,
        {| buf := buf s; seed := seed s; i := i s + 1; n := n s; c := c s |}).

(** [func (s *State) Refill()] *)
Definition Refill (s : State) : State :=
  let c1 := c s + ctrInc in
  let '(seed1, c2) :=
    if c1 =? ctrMax then (drop (length (buf s) - reseed) (buf s), 0)
    else (seed s, c1) in
  let buf1 := block seed1 c2 in
  let n1 := if c2 =? ctrMax - ctrInc
            then Z.of_nat (length buf1) - Z.of_nat reseed
            else Z.of_nat (length buf1) in
  {| buf := buf1; seed := seed1; i := 0; n := n1; c := c2 |}.

End chacha8rand.

(** Modelled from the spec: [uniform(0, delta)] and the one-bit draw of
    section 4.2 are [Int64N] and [IntN] of Go's math/rand/v2 over its
    [ChaCha8] source, on a 64-bit platform; that package is not among the
    repository's files. *)
Module mathrand.

(** [func (c *ChaCha8) Uint64() uint64]: [for { x, ok := Next(); if ok
    { return x }; Refill() }].  After [Refill] the buffer is not empty, so
    the loop body runs at most twice. *)
Definition Uint64 (s : chacha8rand.State) : Z * chacha8rand.State :=
  match chacha8rand.Next s with
  | (x, true, s') => (x, s')
  | (_, false, s') =>
      let '(x, _, s'') := chacha8rand.Next (chacha8rand.Refill s') in
      (x, s'')
  end.

(** [bits.Mul64]: the high and low halves of the 128-bit product. *)
Definition Mul64 (x y : Z) : Z * Z := ((x * y) / 2 ^ 64, (x * y) mod 2 ^ 64).

(** The rejection loop of [uint64n]: [for lo < thresh { hi, lo =
    bits.Mul64(r.Uint64(), n) }], run with fuel. *)
Fixpoint uint64n_loop (fuel : nat) (n thresh hi lo : Z)
    (s : chacha8rand.State) : result (Z * chacha8rand.State) :=
  if lo <? thresh then
    match fuel with
    | O => OutOfFuel
    | S fuel' =>
        let '(x, s') := Uint64 s in
        let '(hi', lo') := Mul64 x n in
        uint64n_loop fuel' n thresh hi' lo' s'
    end
  else Ok (hi, s).

(** [func (r *Rand) uint64n(n uint64) uint64] *)
Definition uint64n (fuel : nat) (n : Z) (s : chacha8rand.State)
    : result (Z * chacha8rand.State) :=
  if Z.land n (chacha8rand.u64 (n - 1)) =? 0 then
    let '(x, s') := Uint64 s in Ok (Z.land x (chacha8rand.u64 (n - 1)), s')
  else
    let '(x, s') := Uint64 s in
    let '(hi, lo) := Mul64 x n in
    if lo <? n then
      let thresh := chacha8rand.u64 (- n) mod n in
      uint64n_loop fuel n thresh hi lo s'
    else Ok (hi, s').

(** [func (r *Rand) Int64N(n int64) int64] *)
Definition Rand_Int64N (fuel : nat) (n : Z) (s : chacha8rand.State)
    : result (Z * chacha8rand.State) :=
  if n <=? 0 then Panic "invalid argument to Int64N"
  else uint64n fuel n s.

(** [func (r *Rand) IntN(n int) int] *)
Definition Rand_IntN (fuel : nat) (n : Z) (s : chacha8rand.State)
    : result (Z * chacha8rand.State) :=
  if n <=? 0 then Panic "invalid argument to IntN"
  else uint64n fuel n s.

(** A [*rand.Rand] over a ChaCha8 source whose rejection loop is given
    [fuel] iterations. *)
Definition ChaCha8_GoRand (fuel : nat) : GoRand chacha8rand.State :=
  {| Int64N := Rand_Int64N fuel; IntN := Rand_IntN fuel |}.

End mathrand.

(** ** Package internal/rand *)

Module rand.

(** [type Seed [32]byte] *)
Definition Seed : Type := list byte.

(** [func NewSeed(s string) Seed] *)
Definition NewSeed (s : string) : result Seed :=
  if bool_decide (String.length s ≠ 32%nat)
  then Panic "seed must be a 32-byte long string"
  else
    let seed := replicate 32 x00 in
    Ok (copy seed (list_byte_of_string s)).

Section Source.
Context {G : Type} {GR : GoRand G}.

(** [type Source struct{ r *rand.Rand }] *)
Record Source := { r : G }.

(** [func (s Source) Dur(min, max time.Duration) time.Duration] *)
Definition Source_Dur (min max : Z) (s : Source) : result (Z * Source) :=
  if max <=? min then Ok (min, s)
  else
    let delta := wrap64 (max - min) in
    '(v, g) ← Int64N delta (r s);
    Ok (wrap64 (min + v), {| r := g |}).

(** [func (s Source) Bool() bool] *)
Definition Source_Bool (s : Source) : result (bool * Source) :=
  '(v, g) ← IntN 2 (r s);
  Ok (v =? 1, {| r := g |}).

End Source.

Arguments Source G : clear implicits.

(** [func NewSourceChaCha8(seed Seed) Source] *)
Definition NewSourceChaCha8 (seed : Seed) : Source chacha8rand.State :=
  {| r := chacha8rand.Init seed |}.

End rand.

(** ** Package httpsim *)

Module httpsim.

(** [type CtxInfo struct] *)
Record CtxInfo := {
  MatchedResourceIndex : Z;
  Delay : Z;
  Replaced : bool
}.

(** What the package reads of an [*http.Request]: the method, [URL.Path],
    the header map, the parsed query [URL.Query()] and the value stored in
    the request context under [CtxKeyInfo] ([None]: no value). *)
Record Request := {
  Method : string;
  URL_Path : string;
  Header : gmap string (list string);
  URL_Query : gmap string (list string);
  ctx : option CtxInfo
}.

(** [r.WithContext(context.WithValue(r.Context(), CtxKeyInfo, info))] *)
Definition WithCtxInfo (r : Request) (info : CtxInfo) : Request :=
  {| Method := Method r; URL_Path := URL_Path r; Header := Header r;
     URL_Query := URL_Query r; ctx := Some info |}.

(** [func CtxInfoValue(ctx context.Context) (info CtxInfo)] *)
Definition CtxInfoValue (c : option CtxInfo) : CtxInfo :=
  match c with
  | Some v => v
  | None => {| MatchedResourceIndex := -1; Delay := 0; Replaced := false |}
  end.

(** [type RandProvider interface]; [R] is the state of the generator. *)
Class RandProvider (R : Type) := {
  Dur : Z -> Z -> R -> result (Z * R);
  Bool : R -> result (bool * R)
}.

(** [type Sleeper interface{ Sleep(time.Duration) }] *)
Class Sleeper (S : Type) := Sleep : Z -> S -> S.

(** [http.ResponseWriter]: [w.Header().Set(k, v)], [w.Write(b)] (its
    results are discarded by the caller) and [w.WriteHeader(code)]. *)
Class ResponseWriter (W : Type) := {
  Header_Set : string -> string -> W -> W;
  Write : string -> W -> W;
  WriteHeader : Z -> W -> result W
}.

(** [http.Handler], with the handler's own state made explicit. *)
Class Handler (H W : Type) :=
  Handler_ServeHTTP : W -> Request -> H -> result (W * H).

(** [func NewSeed(s string) Seed] *)
Definition NewSeed (s : string) : result rand.Seed := rand.NewSeed s.

Section Match.
Context {Glob : Type} {GM : GlobMatcher Glob}.

(** [for i, val := range val { if !values[i].Match(val) { return false } }].
    An index outside [values] would panic; the loop is only entered after
    the two lengths were found equal. *)
Fixpoint valuesMatch (i : nat) (values : list (config.GlobExpression Glob))
    (val : list string) : bool :=
  match val with
  | [] => true
  | v :: val' =>
      match values !! i with
      | Some g =>
          if config.GlobExpression_Match g v
          then valuesMatch (S i) values val' else false
      | None => false
      end
  end.

(** The body of the inner loop, for one configured entry and one field of
    the request. *)
Definition fieldMatches
    (entry : config.GlobExpression Glob * list (config.GlobExpression Glob))
    (field : string * list string) : bool :=
  let '(name, values) := entry in
  let '(header, val) := field in
  if negb (config.GlobExpression_Match name header) then true
  else if negb (length val =? length values)%nat then false
  else valuesMatch 0 values val.

(** [for name, values := range c.Headers { for header, val := range
    r.Header { ... } }], and the same loop over [c.Query] and
    [r.URL.Query()]: false as soon as one pair fails. *)
Definition fieldsMatch
    (entries : config.GlobMap (list (config.GlobExpression Glob)))
    (fields : gmap string (list string)) : bool :=
  forallb (fun entry => forallb (fieldMatches entry) (map_to_list fields))
          entries.

(** [func MatchResource(r *http.Request, c *config.Resource) bool] *)
Definition MatchResource (r : Request) (c : config.Resource Glob) : bool :=
  if (0 <? length (config.Methods c))%nat
     && negb (existsb (String.eqb (Method r)) (config.Methods c))
  then false
  else if negb (config.GlobExpression_Match (config.Path c) (URL_Path r))
  then false
  else if negb (fieldsMatch (config.Resource_Headers c) (Header r))
  then false
  else if negb (fieldsMatch (config.Query c) (URL_Query r))
  then false
  else true.

(** The loop of [Match], from index [i] on. *)
Fixpoint MatchFrom (i : Z) (r : Request)
    (resources : list (config.Resource Glob)) : Z :=
  match resources with
  | [] => -1
  | res :: rest => if MatchResource r res then i else MatchFrom (i + 1) r rest
  end.

(** [func Match(r *http.Request, c *config.Config) int] *)
Definition Match (r : Request) (c : config.Config Glob) : Z :=
  MatchFrom 0 r (config.Resources c).

End Match.

Section Middleware.
Context {Glob R S W H : Type}.
Context {GM : GlobMatcher Glob} {RP : RandProvider R} {SL : Sleeper S}.
Context {RW : ResponseWriter W} {NH : Handler H W}.

(** [type Middleware struct].  The interface values are represented by
    the states of the objects behind them. *)
Record Middleware := {
  rand : R;
  config : config.Config Glob;
  sleeper : S;
  next : H
}.

(** [func (m *Middleware) SetConfig(c config.Config)] *)
Definition SetConfig (m : Middleware) (c : config.Config Glob) : Middleware :=
  {| rand := rand m; config := c; sleeper := sleeper m; next := next m |}.

(** [func NewMiddleware(next, c, sleeper, rnd) *Middleware], for non-nil
    [sleeper] and [rnd]. *)
Definition NewMiddleware (nxt : H) (c : config.Config Glob) (sl : S) (rnd : R)
    : Middleware :=
  {| rand := rnd; config := c; sleeper := sl; next := nxt |}.

(** [for header, value := range c.Replace.Headers
    { w.Header().Set(string(header), value) }], in the order [hs]. *)
Definition setHeaders (hs : list (string * string)) (w : W) : W :=
  foldl (fun w hv => Header_Set hv.1 hv.2 w) w hs.

(** [func (m *Middleware) apply(w http.ResponseWriter, c *config.Effect)
    (delay time.Duration, replaced bool)] *)
Definition apply (m : Middleware) (w : W) (c : config.Effect)
    : result (Z * bool * Middleware * W) :=
  '(delay, m1) ←
    match config.Delay c with
    | Some d =>
        '(delay, rnd) ← Dur (config.Min d) (config.Max d) (rand m);
        Ok (delay, {| rand := rnd; config := config m;
                      sleeper := Sleep delay (sleeper m); next := next m |})
    | None => Ok (0, m)
    end;
  match config.Effect_Replace c with
  | Some rep =>
      let w1 := setHeaders (map_to_list (config.Headers rep)) w in
      let w2 := match config.Body rep with
                | Some body => Write body w1
                | None => w1
                end in
      w3 ← WriteHeader (config.StatusCode rep) w2;
      Ok (delay, true, m1, w3)
  | None => Ok (delay, false, m1, w)
  end.

(** [m.next.ServeHTTP(w, r)] *)
Definition forward (m : Middleware) (w : W) (r : Request)
    : result (W * Middleware) :=
  '(w', h) ← Handler_ServeHTTP w r (next m);
  Ok (w', {| rand := rand m; config := config m; sleeper := sleeper m;
             next := h |}).

(** [func (m *Middleware) ServeHTTP(w http.ResponseWriter, r *http.Request)] *)
Definition ServeHTTP (m : Middleware) (w : W) (r : Request)
    : result (W * Middleware) :=
  let conf := config m in
  let matchedResourceIndex := Match r conf in
  if bool_decide (matchedResourceIndex ≠ -1) then
    match config.Resources conf !! Z.to_nat matchedResourceIndex with
    | None => Panic "index out of range"
    | Some res =>
        '(ctxInfo, m1, w1) ←
          match config.Resource_Effect res with
          | Some effect =>
              '(delay, replaced, m1, w1) ← apply m w effect;
              Ok ({| MatchedResourceIndex := matchedResourceIndex;
                     Delay := delay; Replaced := replaced |}, m1, w1)
          | None =>
              Ok ({| MatchedResourceIndex := matchedResourceIndex;
                     Delay := 0; Replaced := false |}, m, w)
          end;
        let r1 := WithCtxInfo r ctxInfo in
        if Replaced ctxInfo then Ok (w1, m1)
        else forward m1 w1 r1
    end
  else forward m w r.

End Middleware.

Arguments Middleware Glob R S H : clear implicits.

(** [rand.Source] is the [RandProvider] the package is used with. *)
#[global] Instance Source_RandProvider {G : Type} {GR : GoRand G}
    : RandProvider (rand.Source G) :=
  {| Dur := rand.Source_Dur; Bool := rand.Source_Bool |}.

End httpsim.

(** ** The response writer of the tests (net/http/httptest)

    [ResponseRecorder] is Go library code.  It follows the contract of
    [http.ResponseWriter]: the first [Write] commits status 200 when no
    status was committed before, and [WriteHeader] on a committed response
    changes nothing.  Content sniffing ([http.DetectContentType]) is a
    parameter. *)

Module textproto.

Definition isUpper (c : ascii) : bool :=
  (65 <=? nat_of_ascii c)%nat && (nat_of_ascii c <=? 90)%nat.

Definition isLower (c : ascii) : bool :=
  (97 <=? nat_of_ascii c)%nat && (nat_of_ascii c <=? 122)%nat.

Definition isDigit (c : ascii) : bool :=
  (48 <=? nat_of_ascii c)%nat && (nat_of_ascii c <=? 57)%nat.

(** The bytes of an HTTP token. *)
Definition validHeaderFieldByte (c : ascii) : bool :=
  isUpper c || isLower c || isDigit c
  || existsb (Ascii.eqb c) (list_ascii_of_string "!#$%&'*+-.^_`|~").

(** Upper case at the start and after each dash, lower case elsewhere. *)
Fixpoint canonicalize (upper : bool) (s : string) : string :=
  match s with
  | EmptyString => EmptyString
  | String c s' =>
      let c' :=
        if upper && isLower c then ascii_of_nat (nat_of_ascii c - 32)
        else if negb upper && isUpper c then ascii_of_nat (nat_of_ascii c + 32)
        else c in
      String c' (canonicalize (Ascii.eqb c' "-") s')
  end.

(** [func CanonicalMIMEHeaderKey(s string) string]: a key with a byte that
    is not a token byte is returned unchanged. *)
Definition CanonicalMIMEHeaderKey (s : string) : string :=
  if forallb validHeaderFieldByte (list_ascii_of_string s)
  then canonicalize true s else s.

End textproto.

Module httptest.

Section Recorder.
Variable DetectContentType : string -> string.

Record ResponseRecorder := {
  Code : Z;
  HeaderMap : gmap string (list string);
  Body : string;
  wroteHeader : bool;
  snapHeader : gmap string (list string)
}.

(** [func NewRecorder() *ResponseRecorder] *)
Definition NewRecorder : ResponseRecorder :=
  {| Code := 200; HeaderMap := ∅; Body := ""; wroteHeader := false;
     snapHeader := ∅ |}.

(** [rw.Header().Set(key, value)] *)
Definition Header_Set (key value : string) (rw : ResponseRecorder)
    : ResponseRecorder :=
  {| Code := Code rw;
     HeaderMap := <[textproto.CanonicalMIMEHeaderKey key := [value]]>
                    (HeaderMap rw);
     Body := Body rw; wroteHeader := wroteHeader rw;
     snapHeader := snapHeader rw |}.

(** [rw.Header().Get(key)] *)
Definition Header_Get (key : string) (h : gmap string (list string))
    : string :=
  match h !! textproto.CanonicalMIMEHeaderKey key with
  | Some (v :: _) => v
  | _ => ""
  end.

(** [func (rw *ResponseRecorder) WriteHeader(code int)] *)
Definition WriteHeader (code : Z) (rw : ResponseRecorder)
    : result ResponseRecorder :=
  if wroteHeader rw then Ok rw
  else if (code <? 100) || (999 <? code)
  then Panic "invalid WriteHeader code"
  else Ok {| Code := code; HeaderMap := HeaderMap rw; Body := Body rw;
             wroteHeader := true; snapHeader := HeaderMap rw |}.

(** [func (rw *ResponseRecorder) writeHeader(b []byte, str string)] *)
Definition writeHeader (b : string) (rw : ResponseRecorder)
    : ResponseRecorder :=
  if wroteHeader rw then rw
  else
    let m := HeaderMap rw in
    let hasType := bool_decide (is_Some (m !! "Content-Type")) in
    let hasTE := negb (String.eqb (Header_Get "Transfer-Encoding" m) "") in
    let m1 := if negb hasType && negb hasTE
              then <["Content-Type" := [DetectContentType b]]> m else m in
    {| Code := 200; HeaderMap := m1; Body := Body rw; wroteHeader := true;
       snapHeader := m1 |}.

(** [func (rw *ResponseRecorder) Write(buf []byte) (int, error)] *)
Definition Write (buf : string) (rw : ResponseRecorder) : ResponseRecorder :=
  let rw1 := writeHeader buf rw in
  {| Code := Code rw1; HeaderMap := HeaderMap rw1;
     Body := Body rw1 +:+ buf; wroteHeader := wroteHeader rw1;
     snapHeader := snapHeader rw1 |}.

End Recorder.

(** The recorder as an [http.ResponseWriter]. *)
Definition Recorder_ResponseWriter (DetectContentType : string -> string)
    : httpsim.ResponseWriter ResponseRecorder :=
  {| httpsim.Header_Set := Header_Set;
     httpsim.Write := Write DetectContentType;
     httpsim.WriteHeader := WriteHeader |}.

End httptest.

(** ** Test doubles *)

Module testing.

(** [type MockSleep struct{ Cumulative time.Duration }] of the tests. *)
Record MockSleep := { Cumulative : Z }.

(** [func (s *MockSleep) Sleep(d time.Duration) { s.Cumulative += d }] *)
#[global] Instance MockSleep_Sleeper : httpsim.Sleeper MockSleep :=
  fun d s => {| Cumulative := wrap64 (Cumulative s + d) |}.

(** A next handler that only records the requests it is invoked with and
    leaves the response alone, like the handler functions of the tests. *)
Record MockNext := { invoked : list httpsim.Request }.

#[global] Instance MockNext_Handler {W : Type} : httpsim.Handler MockNext W :=
  fun w r h => Ok (w, {| invoked := invoked h ++ [r] |}).

(** A stand-in for a [*rand.Rand] that never fails: draw number [k] is
    [k mod n]. *)
Record CounterRand := { counter : Z }.

#[global] Instance CounterRand_GoRand : GoRand CounterRand :=
  {| Int64N := fun n g =>
       if n <=? 0 then Panic "invalid argument to Int64N"
       else Ok (counter g mod n, {| counter := counter g + 1 |});
     IntN := fun n g =>
       if n <=? 0 then Panic "invalid argument to IntN"
       else Ok (counter g mod n, {| counter := counter g + 1 |}) |}.

(** A stand-in for compiled globs, for patterns made of literal bytes and
    [*]: a [*] matches any run of bytes (no separators are configured in
    [glob.Compile(expression)]). *)
Record StarGlob := { pattern : string }.

Fixpoint star_match (p : list ascii) : list ascii -> bool :=
  match p with
  | [] => fun s => match s with [] => true | _ => false end
  | c :: p' =>
      if Ascii.eqb c "*" then
        fix skip (s : list ascii) : bool :=
          star_match p' s
          || match s with
             | [] => false
             | _ :: s' => skip s'
             end
      else fun s =>
        match s with
        | [] => false
        | d :: s' => Ascii.eqb c d && star_match p' s'
        end
  end.

#[global] Instance StarGlob_GlobMatcher : GlobMatcher StarGlob :=
  fun g s => star_match (list_ascii_of_string (pattern g))
                        (list_ascii_of_string s).

(** [config.NewGlobExpression(expression)] for such a pattern. *)
Definition NewGlobExpression (expression : string)
    : config.GlobExpression StarGlob :=
  {| config.glob := Some {| pattern := expression |} |}.

(** [http.NewRequest(method, url, http.NoBody)] for a URL with the given
    path and no query. *)
Definition NewRequest (method path : string) : httpsim.Request :=
  {| httpsim.Method := method; httpsim.URL_Path := path;
     httpsim.Header := ∅; httpsim.URL_Query := ∅; httpsim.ctx := None |}.

Definition SetHeader (k v : string) (r : httpsim.Request) : httpsim.Request :=
  {| httpsim.Method := httpsim.Method r;
     httpsim.URL_Path := httpsim.URL_Path r;
     httpsim.Header :=
       <[textproto.CanonicalMIMEHeaderKey k := [v]]> (httpsim.Header r);
     httpsim.URL_Query := httpsim.URL_Query r; httpsim.ctx := httpsim.ctx r |}.

Definition SetQuery (k : string) (vs : list string) (r : httpsim.Request)
    : httpsim.Request :=
  {| httpsim.Method := httpsim.Method r;
     httpsim.URL_Path := httpsim.URL_Path r;
     httpsim.Header := httpsim.Header r;
     httpsim.URL_Query := <[k := vs]> (httpsim.URL_Query r);
     httpsim.ctx := httpsim.ctx r |}.

(** The first rule of the README: DELETE requests at [/specific] are
    answered with 404, a body and a content type. *)
Definition README_rule : config.Resource StarGlob :=
  {| config.Methods := ["DELETE"];
     config.Path := NewGlobExpression "/specific";
     config.Resource_Headers := []; config.Query := [];
     config.Resource_Effect := Some
       {| config.Delay := None;
          config.Effect_Replace := Some
            {| config.StatusCode := 404;
               config.Body := Some "Specific resource not found";
               config.Headers := {[ "Content-Type" := "text/plain" ]} |} |} |}.

(** The rule of [TestHandleDur]: any request, a delay between one and two
    seconds, no replacement. *)
Definition delay_rule : config.Resource StarGlob :=
  {| config.Methods := []; config.Path := config.GlobExpression_zero;
     config.Resource_Headers := []; config.Query := [];
     config.Resource_Effect := Some
       {| config.Delay := Some {| config.Min := Second;
                                  config.Max := 2 * Second |};
          config.Effect_Replace := None |} |}.

(** The rule of [TestHandleReplace]: a delay and a replacement with status
    500, a body and two headers. *)
Definition replace_rule : config.Resource StarGlob :=
  {| config.Methods := []; config.Path := config.GlobExpression_zero;
     config.Resource_Headers := []; config.Query := [];
     config.Resource_Effect := Some
       {| config.Delay := Some {| config.Min := Second;
                                  config.Max := 2 * Second |};
          config.Effect_Replace := Some
            {| config.StatusCode := 500;
               config.Body := Some "replaced body";
               config.Headers := {[ "X-CustomAdd" := "added";
                                    "X-CustomReplace" := "replaced" ]} |} |} |}.

(** [NewSimulator] of the tests, over a generator state [rnd]. *)
Definition NewSimulator {R : Type} (conf : config.Config StarGlob) (rnd : R)
    : httpsim.Middleware StarGlob R MockSleep MockNext :=
  httpsim.NewMiddleware {| invoked := [] |} conf {| Cumulative := 0 |} rnd.

(** What the handler tests look at after [s.ServeHTTP(rec, req)]: the
    recorder's code, header map and body, the sleep total, and the outcome
    seen by the next handler at each invocation. *)
Definition observed {R : Type}
    (x : result (httptest.ResponseRecorder *
                 httpsim.Middleware StarGlob R MockSleep MockNext)) :=
  '(w, m) ← x;
  Ok (httptest.Code w, map_to_list (httptest.HeaderMap w), httptest.Body w,
      Cumulative (httpsim.sleeper m),
      (fun r => httpsim.CtxInfoValue (httpsim.ctx r))
        <$> invoked (httpsim.next m)).

(** One request served by the simulator of the tests: the ChaCha8 source
    seeded as in [NewSimulator], a fresh recorder whose content sniffing
    answers plain text. *)
Definition served (rule : config.Resource StarGlob) (r : httpsim.Request) :=
  observed
    (seed ← httpsim.NewSeed "fedcba9876543210fedcba9876543210";
     httpsim.ServeHTTP
       (RP := httpsim.Source_RandProvider (GR := mathrand.ChaCha8_GoRand 0))
       (RW := httptest.Recorder_ResponseWriter
                (fun _ => "text/plain; charset=utf-8"))
       (NewSimulator {| config.Resources := [rule] |}
          (rand.NewSourceChaCha8 seed))
       httptest.NewRecorder r).

End testing.

(** ** Package config: validation of names, methods and status codes

    The remaining [Validate] and [UnmarshalText] methods of package config.
    They read their input rune by rune and consult two tables of the Go
    distribution (package unicode, [http.StatusText]). *)

(** What a [for _, char := range s] loop sees: the runes of [s] decoded as
    UTF-8, where a byte that starts no well-formed sequence counts as
    [RuneError] of width one. *)
Module utf8.

Definition RuneError : Z := 0xFFFD.

(** The bytes of a Go string. *)
Definition bytes (s : string) : list Z :=
  (fun a => Z.of_nat (nat_of_ascii a)) <$> list_ascii_of_string s.

Definition between (lo hi b : Z) : bool := (lo <=? b) && (b <=? hi).

(** The first rune of a non-empty byte sequence and its width. *)
Definition DecodeRune (bs : list Z) : Z * nat :=
  match bs with
  | [] => (RuneError, 0%nat)
  | b0 :: rest =>
      if b0 <? 0x80 then (b0, 1%nat)
      else if between 0xC2 0xDF b0 then
        match rest with
        | b1 :: _ =>
            if between 0x80 0xBF b1
            then (b0 mod 32 * 64 + b1 mod 64, 2%nat)
            else (RuneError, 1%nat)
        | _ => (RuneError, 1%nat)
        end
      else if between 0xE0 0xEF b0 then
        match rest with
        | b1 :: b2 :: _ =>
            let lo := if b0 =? 0xE0 then 0xA0 else 0x80 in
            let hi := if b0 =? 0xED then 0x9F else 0xBF in
            if between lo hi b1 && between 0x80 0xBF b2
            then (b0 mod 16 * 4096 + b1 mod 64 * 64 + b2 mod 64, 3%nat)
            else (RuneError, 1%nat)
        | _ => (RuneError, 1%nat)
        end
      else if between 0xF0 0xF4 b0 then
        match rest with
        | b1 :: b2 :: b3 :: _ =>
            let lo := if b0 =? 0xF0 then 0x90 else 0x80 in
            let hi := if b0 =? 0xF4 then 0x8F else 0xBF in
            if between lo hi b1 && between 0x80 0xBF b2
               && between 0x80 0xBF b3
            then (b0 mod 8 * 262144 + b1 mod 64 * 4096
                  + b2 mod 64 * 64 + b3 mod 64, 4%nat)
            else (RuneError, 1%nat)
        | _ => (RuneError, 1%nat)
        end
      else (RuneError, 1%nat)
  end.

(** The runes of a byte sequence of which the first [skip] bytes belong to
    the rune before. *)
Fixpoint runes_from (skip : nat) (bs : list Z) : list Z :=
  match bs with
  | [] => []
  | b :: rest =>
      match skip with
      | S k => runes_from k rest
      | O =>
          let '(r, w) := DecodeRune (b :: rest) in
          r :: runes_from (w - 1) rest
      end
  end.

Definition runes (s : string) : list Z := runes_from 0 (bytes s).

End utf8.

(** Package unicode.  On ASCII the predicates are written out; what the
    tables say about the runes beyond ASCII is a parameter. *)
Module unicode.

Definition MaxASCII : Z := 0x7F.

Class Tables := {
  letter : Z -> bool;
  digit : Z -> bool;
  lower : Z -> bool
}.

Section Predicates.
Context {T : Tables}.

Definition IsLetter (r : Z) : bool :=
  if r <=? MaxASCII
  then utf8.between 65 90 r || utf8.between 97 122 r
  else letter r.

Definition IsDigit (r : Z) : bool :=
  if r <=? MaxASCII then utf8.between 48 57 r else digit r.

Definition IsLower (r : Z) : bool :=
  if r <=? MaxASCII then utf8.between 97 122 r else lower r.

End Predicates.

End unicode.

(** [http.StatusText]: the reason phrase of the status codes known to
    net/http, the empty string for every other code. *)
Module http.

Definition statusText : list (Z * string) :=
  [(100, "Continue"); (101, "Switching Protocols"); (102, "Processing");
   (103, "Early Hints");
   (200, "OK"); (201, "Created"); (202, "Accepted");
   (203, "Non-Authoritative Information"); (204, "No Content");
   (205, "Reset Content"); (206, "Partial Content"); (207, "Multi-Status");
   (208, "Already Reported"); (226, "IM Used");
   (300, "Multiple Choices"); (301, "Moved Permanently"); (302, "Found");
   (303, "See Other"); (304, "Not Modified"); (305, "Use Proxy");
   (307, "Temporary Redirect"); (308, "Permanent Redirect");
   (400, "Bad Request"); (401, "Unauthorized"); (402, "Payment Required");
   (403, "Forbidden"); (404, "Not Found"); (405, "Method Not Allowed");
   (406, "Not Acceptable"); (407, "Proxy Authentication Required");
   (408, "Request Timeout"); (409, "Conflict"); (410, "Gone");
   (411, "Length Required"); (412, "Precondition Failed");
   (413, "Request Entity Too Large"); (414, "Request URI Too Long");
   (415, "Unsupported Media Type");
   (416, "Requested Range Not Satisfiable"); (417, "Expectation Failed");
   (418, "I'm a teapot"); (421, "Misdirected Request");
   (422, "Unprocessable Entity"); (423, "Locked");
   (424, "Failed Dependency"); (425, "Too Early");
   (426, "Upgrade Required"); (428, "Precondition Required");
   (429, "Too Many Requests"); (431, "Request Header Fields Too Large");
   (451, "Unavailable For Legal Reasons");
   (500, "Internal Server Error"); (501, "Not Implemented");
   (502, "Bad Gateway"); (503, "Service Unavailable");
   (504, "Gateway Timeout"); (505, "HTTP Version Not Supported");
   (506, "Variant Also Negotiates"); (507, "Insufficient Storage");
   (508, "Loop Detected"); (510, "Not Extended");
   (511, "Network Authentication Required")].

(** [func StatusText(code int) string] *)
Definition StatusText (code : Z) : string :=
  match list_find (fun e => e.1 = code) statusText with
  | Some (_, (_, text)) => text
  | None => ""
  end.

End http.

Module validation.

(** The errors of these methods.  [ErrInvalidStatusCode c] stands for
    [fmt.Errorf("%w: %d", ErrInvalidStatusCode, c)] and [ErrDuplicateGlob s]
    for [fmt.Errorf("duplicate header glob: %q", s)]. *)
Inductive error :=
| ErrInvalidHTTPMethod
| ErrInvalidStatusCode (c : Z)
| ErrInvalidHeaderName
| ErrDuplicateGlob (s : string).

Section Validation.
Context {T : unicode.Tables}.

(** [func (m *HTTPMethod) UnmarshalText(text []byte) error]: the new value
    of [*m] and the error. *)
Definition HTTPMethod_UnmarshalText (text : string) : string * option error :=
  let m := text in
  if String.eqb m "" then (m, Some ErrInvalidHTTPMethod)
  else if existsb
            (fun char => (unicode.MaxASCII <? char)
                         || negb (unicode.IsLetter char)
                         || unicode.IsLower char)
            (utf8.runes m)
  then (m, Some ErrInvalidHTTPMethod)
  else (m, None).

(** [func (c StatusCode) Validate() error] *)
Definition StatusCode_Validate (c : Z) : option error :=
  if String.eqb (http.StatusText c) "" then Some (ErrInvalidStatusCode c)
  else None.

(** [func (n HeaderName) Validate() error] *)
Definition HeaderName_Validate (n : string) : option error :=
  if String.eqb n "" then Some ErrInvalidHeaderName
  else if existsb
            (fun char => negb ((char =? 45)
                               || unicode.IsLetter char
                               || unicode.IsDigit char)
                         || (unicode.MaxASCII <? char))
            (utf8.runes n)
  then Some ErrInvalidHeaderName
  else None.

End Validation.

(** [fmt.Sprintf("%v", g)] for a compiled glob [g]: how the glob library
    prints its matchers. *)
Class GlobPrinter (Glob : Type) := glob_Sprint : Glob -> string.

Section GlobMap.
Context {Glob : Type} {GP : GlobPrinter Glob}.

(** The loop of [GlobMap.Validate] over the keys still to visit, with the
    set [stringified] of the representations seen so far.  [*g.glob] of a
    key that was never compiled dereferences a nil pointer. *)
Fixpoint GlobMap_Validate_loop (stringified : gset string)
    (keys : list (config.GlobExpression Glob)) : result (option error) :=
  match keys with
  | [] => Ok None
  | g :: keys' =>
      match config.glob g with
      | None => Panic "invalid memory address or nil pointer dereference"
      | Some gl =>
          let s := glob_Sprint gl in
          if bool_decide (s ∈ stringified) then Ok (Some (ErrDuplicateGlob s))
          else GlobMap_Validate_loop ({[ s ]} ∪ stringified) keys'
      end
  end.

(** [func (h GlobMap[T]) Validate() error], the keys visited in the order
    of the association list. *)
Definition GlobMap_Validate {V : Type} (h : config.GlobMap V)
    : result (option error) :=
  GlobMap_Validate_loop ∅ h.*1.

(** The representations of the compiled keys, in the order of the keys. *)
Definition printed (keys : list (config.GlobExpression Glob)) : list string :=
  omap (fun g => glob_Sprint <$> config.glob g) keys.

End GlobMap.

(** What the checks of this file ask of a rule before it is served: its
    delay range passes [DurRange.Validate] and its replacement status code
    passes [StatusCode.Validate]. *)
Definition effectValidated (e : config.Effect) : Prop :=
  (∀ d, config.Delay e = Some d → config.DurRange_Validate d = None) ∧
  (∀ rep, config.Effect_Replace e = Some rep →
     StatusCode_Validate (config.StatusCode rep) = None).

(** A rule that can be served: its effect is validated, and the width of
    its delay range is an int64. *)
Definition servable {Glob : Type} (res : config.Resource Glob) : Prop :=
  ∀ e, config.Resource_Effect res = Some e →
    effectValidated e ∧
    ∀ d, config.Delay e = Some d →
      int64 (config.Min d) ∧ int64 (config.Max d) ∧
      config.Max d - config.Min d <= MaxInt64.

End validation.

(** Stand-ins for running the validation methods: tables that know no
    letter or digit beyond ASCII (the methods reject such runes whatever
    the tables say), and globs printed as their pattern. *)
Module fixtures.

Definition ascii_only : unicode.Tables :=
  {| unicode.letter := fun _ => false; unicode.digit := fun _ => false;
     unicode.lower := fun _ => false |}.

Definition print_pattern : validation.GlobPrinter testing.StarGlob :=
  testing.pattern.

End fixtures.

(** ** Statements in the words of the specification *)

Module spec.

Section Spec.
Context {Glob : Type} {GM : GlobMatcher Glob}.

(** Step 1 of [ruleMatches]: a non-empty method list must contain the
    request method. *)
Definition methodAllowed (r : httpsim.Request) (c : config.Resource Glob)
    : Prop :=
  config.Methods c = [] ∨ httpsim.Method r ∈ config.Methods c.

(** Steps 3 and 4 of [ruleMatches]: every field present on the request whose
    name matches a configured name pattern carries exactly as many values
    as the entry has value patterns, and the value at each position matches
    the pattern at that position. *)
Definition exactCardinality
    (entries : config.GlobMap (list (config.GlobExpression Glob)))
    (fields : gmap string (list string)) : Prop :=
  ∀ name values field val,
    (name, values) ∈ entries →
    fields !! field = Some val →
    config.GlobExpression_Match name field = true →
    length val = length values ∧
    ∀ (i : nat) v, val !! i = Some v →
      ∃ g, values !! i = Some g ∧ config.GlobExpression_Match g v = true.

(** [ruleMatches(rule, request)] *)
Definition ruleMatches (r : httpsim.Request) (c : config.Resource Glob)
    : Prop :=
  methodAllowed r c ∧
  config.GlobExpression_Match (config.Path c) (httpsim.URL_Path r) = true ∧
  exactCardinality (config.Resource_Headers c) (httpsim.Header r) ∧
  exactCardinality (config.Query c) (httpsim.URL_Query r).


(** [i] is the lowest index of a rule of [resources] that [r] matches. *)
Definition firstMatch (r : httpsim.Request)
    (resources : list (config.Resource Glob)) (i : nat) : Prop :=
  (∃ res, resources !! i = Some res ∧ httpsim.MatchResource r res = true) ∧
  ∀ (j : nat) res, (j < i)%nat → resources !! j = Some res →
    httpsim.MatchResource r res = false.

(** No rule of [resources] matches [r]. *)
Definition noMatch (r : httpsim.Request)
    (resources : list (config.Resource Glob)) : Prop :=
  ∀ (j : nat) res, resources !! j = Some res →
    httpsim.MatchResource r res = false.

(** A call of the randomness source and its output. *)
Inductive Call := CallBool | CallDur (min max : Z).

Inductive Output := OutBool (b : bool) | OutDur (d : Z).

End Spec.

(** A fixed sequence of calls on a source: the outputs in call order. *)
Fixpoint run {G : Type} {GR : GoRand G} (calls : list Call) (s : rand.Source G)
    : result (list Output) :=
  match calls with
  | [] => Ok []
  | CallBool :: calls' =>
      '(b, s') ← rand.Source_Bool s;
      outs ← run calls' s';
      Ok (OutBool b :: outs)
  | CallDur min max :: calls' =>
      '(d, s') ← rand.Source_Dur min max s;
      outs ← run calls' s';
      Ok (OutDur d :: outs)
  end.

(** The contract of [rand.Rand.Int64N] and [rand.Rand.IntN]: a panic for
    [n <= 0], otherwise a value in [[0, n)]. *)
Class GoRandContract (G : Type) {GR : GoRand G} : Prop := {
  Int64N_panics : ∀ n (g : G), n <= 0 →
    Int64N n g = Panic "invalid argument to Int64N";
  Int64N_draws : ∀ n (g : G), 0 < n →
    ∃ v g', Int64N n g = Ok (v, g') ∧ 0 <= v < n;
  IntN_draws : ∀ n (g : G), 0 < n →
    ∃ v g', IntN n g = Ok (v, g') ∧ 0 <= v < n
}.

(** The contract of [RandProvider.Dur], "a random duration within the given
    min and max range", for ranges whose width is an int64. *)
Class RandProviderContract (R : Type) {RP : httpsim.RandProvider R}
    : Prop := {
  Dur_within : ∀ min max (rnd : R),
    int64 min → int64 max → min <= max → max - min <= MaxInt64 →
    ∃ d rnd', httpsim.Dur min max rnd = Ok (d, rnd') ∧ min <= d <= max
}.

End spec.

(** * Proofs *)

(** ** Arithmetic on int64 *)

Lemma wrap64_id (x : Z) : int64 x → wrap64 x = x.
Proof.
  unfold int64, MinInt64, MaxInt64, wrap64. intros Hx.
  rewrite Z.mod_small; lia.
Qed.

Lemma wrap64_overflow (x : Z) : MaxInt64 < x <= MaxInt64 - MinInt64 →
  wrap64 x = x - 2 ^ 64 ∧ wrap64 x < 0.
Proof.
  unfold MinInt64, MaxInt64, wrap64. intros Hx.
  assert ((x + 2 ^ 63) mod 2 ^ 64 = x + 2 ^ 63 - 2 ^ 64) as ->.
  { symmetry. apply (Z.mod_unique_pos _ _ 1); lia. }
  lia.
Qed.

(** ** Matching *)

Section MatchProofs.
Context {Glob : Type} {GM : GlobMatcher Glob}.

Lemma valuesMatch_lookup (values : list (config.GlobExpression Glob))
    (val : list string) (i : nat) :
  httpsim.valuesMatch i values val = true ↔
  ∀ (k : nat) v, val !! k = Some v →
    ∃ g, values !! (i + k)%nat = Some g ∧
         config.GlobExpression_Match g v = true.
Proof.
  revert i. induction val as [|v0 val IH]; intros i; simpl.
  - split; [intros _ k v Hk; by rewrite lookup_nil in Hk | done].
  - split.
    + destruct (values !! i) as [g|] eqn:Hg; [|done].
      destruct (config.GlobExpression_Match g v0) eqn:Hm; [|done].
      intros Hrest [|k] v Hk; simpl in Hk.
      * injection Hk as <-. exists g. by rewrite Nat.add_0_r.
      * apply IH with (k := k) (v := v) in Hrest; [|done].
        by replace (i + S k)%nat with (S i + k)%nat by lia.
    + intros Hall.
      destruct (Hall 0%nat v0 eq_refl) as (g & Hg & Hm).
      rewrite Nat.add_0_r in Hg. rewrite Hg, Hm.
      apply IH. intros k v Hk.
      replace (S i + k)%nat with (i + S k)%nat by lia.
      by apply Hall.
Qed.

Lemma fieldMatches_true
    (name : config.GlobExpression Glob)
    (values : list (config.GlobExpression Glob))
    (field : string) (val : list string) :
  httpsim.fieldMatches (name, values) (field, val) = true ↔
  (config.GlobExpression_Match name field = true →
   length val = length values ∧
   ∀ (i : nat) v, val !! i = Some v →
     ∃ g, values !! i = Some g ∧ config.GlobExpression_Match g v = true).
Proof.
  unfold httpsim.fieldMatches.
  destruct (config.GlobExpression_Match name field); simpl.
  - destruct (Nat.eqb_spec (length val) (length values)) as [Hlen|Hlen]; simpl.
    + rewrite valuesMatch_lookup. simpl. tauto.
    + split; [done|]. intros Hx. by destruct (Hx eq_refl).
  - split; [intros _ ?; done | done].
Qed.

Lemma fieldsMatch_exactCardinality
    (entries : config.GlobMap (list (config.GlobExpression Glob)))
    (fields : gmap string (list string)) :
  httpsim.fieldsMatch entries fields = true ↔
  spec.exactCardinality entries fields.
Proof.
  unfold httpsim.fieldsMatch, spec.exactCardinality.
  rewrite forallb_forall. split.
  - intros Hall name values field val Hin Hf Hm.
    specialize (Hall (name, values)).
    rewrite <- list_elem_of_In in Hall. specialize (Hall Hin).
    rewrite forallb_forall in Hall.
    specialize (Hall (field, val)).
    rewrite <- list_elem_of_In, elem_of_map_to_list in Hall.
    specialize (Hall Hf).
    apply fieldMatches_true in Hall; done.
  - intros Hall [name values] Hin. apply list_elem_of_In in Hin.
    rewrite forallb_forall. intros [field val] Hf.
    apply list_elem_of_In, elem_of_map_to_list in Hf.
    apply fieldMatches_true. intros Hm. by eapply Hall.
Qed.

Lemma methods_check (r : httpsim.Request) (c : config.Resource Glob) :
  (0 <? length (config.Methods c))%nat
  && negb (existsb (String.eqb (httpsim.Method r)) (config.Methods c)) = false
  ↔ spec.methodAllowed r c.
Proof.
  unfold spec.methodAllowed.
  destruct (config.Methods c) as [|m ms] eqn:Hms; simpl.
  - split; [by left | done].
  - rewrite negb_false_iff, orb_true_iff, existsb_exists. split.
    + intros [Heq | (x & Hin & Heq)]; right.
      * apply String.eqb_eq in Heq as ->. by left.
      * apply String.eqb_eq in Heq as ->. right. by apply list_elem_of_In.
    + intros [Hnil | Hin]; [done|].
      apply elem_of_cons in Hin as [-> | Hin].
      * left. apply String.eqb_refl.
      * right. exists (httpsim.Method r). split.
        -- by apply list_elem_of_In.
        -- apply String.eqb_refl.
Qed.

(** [MatchResource] decides [ruleMatches]. *)
Lemma MatchResource_ruleMatches (r : httpsim.Request)
    (c : config.Resource Glob) :
  httpsim.MatchResource r c = true ↔ spec.ruleMatches r c.
Proof.
  unfold httpsim.MatchResource, spec.ruleMatches.
  rewrite <- methods_check, <- !fieldsMatch_exactCardinality.
  destruct ((0 <? length (config.Methods c))%nat
            && negb (existsb (String.eqb (httpsim.Method r))
                             (config.Methods c)));
    [intuition discriminate|].
  destruct (config.GlobExpression_Match (config.Path c) (httpsim.URL_Path r));
    simpl; [|intuition discriminate].
  destruct (httpsim.fieldsMatch (config.Resource_Headers c)
                                (httpsim.Header r));
    simpl; [|intuition discriminate].
  destruct (httpsim.fieldsMatch (config.Query c) (httpsim.URL_Query r));
    simpl; intuition discriminate.
Qed.

End MatchProofs.

Section MatchTheorems.
Context {Glob : Type} {GM : GlobMatcher Glob}.

Lemma firstMatch_unique r resources (i j : nat) :
  spec.firstMatch r resources i → spec.firstMatch r resources j → i = j.
Proof.
  intros [(ri & Hi & Hmi) Hlti] [(rj & Hj & Hmj) Hltj].
  destruct (Nat.lt_trichotomy i j) as [Hlt | [-> | Hlt]]; [|done|].
  - rewrite (Hltj i ri Hlt Hi) in Hmi. done.
  - rewrite (Hlti j rj Hlt Hj) in Hmj. done.
Qed.

Lemma MatchFrom_cases (r : httpsim.Request)
    (resources : list (config.Resource Glob)) (i : Z) :
  (httpsim.MatchFrom i r resources = -1 ∧ spec.noMatch r resources) ∨
  (∃ k : nat, httpsim.MatchFrom i r resources = i + Z.of_nat k ∧
              spec.firstMatch r resources k).
Proof.
  revert i. induction resources as [|res rest IH]; intros i; simpl.
  - left. split; [done|]. intros j res Hj. by rewrite lookup_nil in Hj.
  - destruct (httpsim.MatchResource r res) eqn:Hm.
    + right. exists 0%nat. split; [lia|]. split.
      * by exists res.
      * intros j res' Hj. lia.
    + destruct (IH (i + 1))
        as [[Heq Hnone] | (k & Heq & (res' & Hk & Hmk) & Hlt)].
      * left. split; [done|]. intros [|j] res' Hj; simpl in Hj.
        -- by injection Hj as <-.
        -- by eapply Hnone.
      * right. exists (S k). split; [lia|]. split.
        -- by exists res'.
        -- intros [|j] res'' Hj Hl; simpl in Hl.
           ++ by injection Hl as <-.
           ++ apply (Hlt j); [lia | done].
Qed.

(** C2.  [Match] returns the lowest index of a rule that the request
    matches, and [-1] exactly when no rule matches: the result is an index
    [i] if and only if rule [i] matches and no rule before it does, so of
    two matching rules the earlier one wins. *)
Theorem C2_Match_returns_first_match (r : httpsim.Request)
    (c : config.Config Glob) :
  (∀ i : nat, httpsim.Match r c = Z.of_nat i ↔
              spec.firstMatch r (config.Resources c) i) ∧
  (httpsim.Match r c = -1 ↔ spec.noMatch r (config.Resources c)) ∧
  (httpsim.Match r c = -1 ∨
   ∃ i : nat, httpsim.Match r c = Z.of_nat i ∧
              (i < length (config.Resources c))%nat) ∧
  (∀ (i j : nat) ri rj, (i < j)%nat →
     config.Resources c !! i = Some ri → config.Resources c !! j = Some rj →
     httpsim.MatchResource r ri = true → httpsim.MatchResource r rj = true →
     httpsim.Match r c ≠ Z.of_nat j).
Proof.
  unfold httpsim.Match.
  destruct (MatchFrom_cases r (config.Resources c) 0)
    as [[Heq Hnone] | (k & Heq & Hk)]; rewrite Heq.
  - split; [|split; [|split]].
    + intros i. split; [lia|].
      intros [(res & Hi & Hm) _]. by rewrite (Hnone i res Hi) in Hm.
    + done.
    + by left.
    + intros i j ri rj Hlt Hi Hj Hmi Hmj. lia.
  - split; [|split; [|split]].
    + intros i. split.
      * intros Hik. by replace i with k by lia.
      * intros Hi. rewrite (firstMatch_unique _ _ _ _ Hi Hk). lia.
    + split; [lia|].
      intros Hnone. destruct Hk as [(res & Hi & Hm) _].
      by rewrite (Hnone k res Hi) in Hm.
    + right. exists k. split; [lia|].
      destruct Hk as [(res & Hi & _) _]. by eapply lookup_lt_Some.
    + intros i j ri rj Hlt Hi Hj Hmi Hmj Hkj.
      assert (k = j) as -> by lia.
      destruct Hk as [_ Hbefore]. by rewrite (Hbefore i ri Hlt Hi) in Hmi.
Qed.

(** C3.  Header and query matching is exact-cardinality and per-position:
    [MatchResource] holds exactly when the method and path checks pass and,
    for every configured name pattern and every header (resp. query
    parameter) of the request whose name matches it, the value list has
    the length of the configured pattern list and the value at each
    position matches the pattern at that position.  So a rule with one
    value pattern for a parameter does not match a request that carries
    two values for it, whatever the values are. *)
Theorem C3_exact_cardinality_per_position (r : httpsim.Request)
    (c : config.Resource Glob) :
  (httpsim.MatchResource r c = true ↔
   spec.methodAllowed r c ∧
   config.GlobExpression_Match (config.Path c) (httpsim.URL_Path r) = true ∧
   spec.exactCardinality (config.Resource_Headers c) (httpsim.Header r) ∧
   spec.exactCardinality (config.Query c) (httpsim.URL_Query r)) ∧
  (∀ name g p v1 v2,
     (name, [g]) ∈ config.Query c →
     httpsim.URL_Query r !! p = Some [v1; v2] →
     config.GlobExpression_Match name p = true →
     httpsim.MatchResource r c = false) ∧
  (∀ name g h v1 v2,
     (name, [g]) ∈ config.Resource_Headers c →
     httpsim.Header r !! h = Some [v1; v2] →
     config.GlobExpression_Match name h = true →
     httpsim.MatchResource r c = false).
Proof.
  split; [apply MatchResource_ruleMatches|].
  split; intros name g p v1 v2 Hin Hp Hm;
    apply not_true_is_false; intros Hr;
    apply MatchResource_ruleMatches in Hr as (_ & _ & Hh & Hq).
  - by destruct (Hq name [g] p [v1; v2] Hin Hp Hm).
  - by destruct (Hh name [g] p [v1; v2] Hin Hp Hm).
Qed.

(** C7.  The zero value of [GlobExpression] (never compiled from a
    pattern) matches every candidate string, the empty one included, and a
    rule that leaves methods, path, headers and query out matches every
    request. *)
Theorem C7_uninitialized_glob_matches_everything :
  (∀ s : string,
     config.GlobExpression_Match (config.GlobExpression_zero (Glob := Glob)) s
     = true) ∧
  config.GlobExpression_Match (config.GlobExpression_zero (Glob := Glob)) ""
  = true ∧
  (∀ (r : httpsim.Request) (e : option config.Effect),
     httpsim.MatchResource r
       {| config.Methods := []; config.Path := config.GlobExpression_zero;
          config.Resource_Headers := []; config.Query := [];
          config.Resource_Effect := e |} = true).
Proof. done. Qed.


Lemma MatchResource_ext (r : httpsim.Request) (c c' : config.Resource Glob) :
  (spec.ruleMatches r c ↔ spec.ruleMatches r c') →
  httpsim.MatchResource r c = httpsim.MatchResource r c'.
Proof.
  rewrite <- !MatchResource_ruleMatches.
  destruct (httpsim.MatchResource r c), (httpsim.MatchResource r c');
    intuition discriminate.
Qed.


End MatchTheorems.

(** ** Configuration validation *)

(** C4 (as amended).  [DurRange.Validate] accepts a range exactly when
    [min <= max] and rejects every other range with [ErrMinGreaterMax];
    the sign of [min] and [max] plays no part. *)
Theorem C4_DurRange_Validate_checks_order_only (r : config.DurRange) :
  (config.DurRange_Validate r = None ↔ config.Min r <= config.Max r) ∧
  (config.DurRange_Validate r = Some config.ErrMinGreaterMax ↔
   config.Max r < config.Min r).
Proof.
  unfold config.DurRange_Validate.
  destruct (Z.ltb_spec (config.Max r) (config.Min r)); split; split;
    intros; (done || lia).
Qed.

(** C4 as stated fails: the range [{Min: -10, Max: 1}] is accepted (the
    configuration tests assert it), although its minimum is negative. *)
Lemma C4_negative_min_is_accepted :
  ¬ (∀ r : config.DurRange, config.DurRange_Validate r = None →
       0 <= config.Min r ∧ 0 <= config.Max r ∧ config.Min r <= config.Max r).
Proof.
  intros Hclaim.
  destruct (Hclaim {| config.Min := -10; config.Max := 1 |} eq_refl)
    as [Hneg _].
  simpl in Hneg. lia.
Qed.

(** ** Seeds *)

Lemma length_list_byte_of_string (s : string) :
  length (list_byte_of_string s) = String.length s.
Proof.
  unfold list_byte_of_string. rewrite length_map.
  induction s as [|a s IH]; simpl; [done | by rewrite IH].
Qed.

Lemma copy_same_length {A : Type} (dst src : list A) :
  length src = length dst → copy dst src = src.
Proof.
  intros Hlen. unfold copy.
  rewrite <- Hlen, firstn_all, (drop_ge dst) by lia.
  apply app_nil_r.
Qed.

(** C9.  [NewSeed] panics for every string whose length is not 32 bytes
    and, for a string of exactly 32 bytes, returns those 32 bytes: a seed
    is never a truncated or padded input.  [httpsim.NewSeed] is the same
    function. *)
Theorem C9_NewSeed_requires_32_bytes (s : string) :
  (String.length s ≠ 32%nat →
   rand.NewSeed s = Panic "seed must be a 32-byte long string") ∧
  (String.length s = 32%nat →
   rand.NewSeed s = Ok (list_byte_of_string s)) ∧
  (∀ seed, rand.NewSeed s = Ok seed →
     seed = list_byte_of_string s ∧ length seed = 32%nat) ∧
  httpsim.NewSeed s = rand.NewSeed s.
Proof.
  assert (String.length s = 32%nat →
          rand.NewSeed s = Ok (list_byte_of_string s)) as Hok.
  { intros Hlen. unfold rand.NewSeed.
    rewrite bool_decide_eq_false_2 by (intros Hne; by apply Hne).
    rewrite copy_same_length; [done|].
    by rewrite length_list_byte_of_string, length_replicate. }
  split; [|split; [done|split; [|done]]].
  - intros Hlen. unfold rand.NewSeed. by rewrite bool_decide_eq_true_2.
  - intros seed Hseed.
    destruct (decide (String.length s = 32%nat)) as [Hlen|Hlen].
    + rewrite (Hok Hlen) in Hseed. injection Hseed as <-.
      by rewrite length_list_byte_of_string.
    + unfold rand.NewSeed in Hseed.
      by rewrite bool_decide_eq_true_2 in Hseed.
Qed.

(** ** The randomness source *)

Section SourceProofs.
Context {G : Type} {GR : GoRand G}.

(** A degenerate range returns [min] and leaves the stream where it
    was. *)
Lemma Source_Dur_degenerate (min max : Z) (s : rand.Source G) :
  max <= min → rand.Source_Dur min max s = Ok (min, s).
Proof.
  intros Hle. unfold rand.Source_Dur.
  by destruct (Z.leb_spec max min); [|lia].
Qed.

(** A range wider than an int64 makes [max - min] wrap to a negative
    number, which [Int64N] refuses. *)
Lemma Source_Dur_overflow {GC : spec.GoRandContract G} (min max : Z)
    (s : rand.Source G) :
  int64 min → int64 max → MaxInt64 < max - min →
  rand.Source_Dur min max s = Panic "invalid argument to Int64N".
Proof.
  intros Hmin Hmax Hwide. unfold rand.Source_Dur.
  destruct (Z.leb_spec max min); [unfold MaxInt64 in *; lia|].
  destruct (wrap64_overflow (max - min)) as [_ Hneg].
  { unfold int64, MinInt64, MaxInt64 in *. lia. }
  rewrite spec.Int64N_panics by lia. done.
Qed.

(** A proper range whose width is an int64: one draw below the width,
    added to [min]. *)
Lemma Source_Dur_draws {GC : spec.GoRandContract G} (min max : Z)
    (s : rand.Source G) :
  int64 min → int64 max → min < max → max - min <= MaxInt64 →
  ∃ v g, Int64N (max - min) (rand.r s) = Ok (v, g) ∧
         0 <= v < max - min ∧
         rand.Source_Dur min max s = Ok (min + v, {| rand.r := g |}) ∧
         min <= min + v < max.
Proof.
  intros Hmin Hmax Hlt Hwidth. unfold rand.Source_Dur.
  destruct (Z.leb_spec max min); [lia|].
  rewrite (wrap64_id (max - min))
    by (unfold int64, MinInt64, MaxInt64 in *; lia).
  destruct (spec.Int64N_draws (max - min) (rand.r s)) as (v & g & Hdraw & Hv);
    [lia|].
  exists v, g. rewrite Hdraw. simpl.
  rewrite wrap64_id by (unfold int64, MinInt64, MaxInt64 in *; lia).
  repeat split; (done || lia).
Qed.

(** [rand.Source] keeps the contract of [RandProvider.Dur]. *)
Lemma Source_RandProviderContract {GC : spec.GoRandContract G} :
  spec.RandProviderContract (rand.Source G).
Proof.
  constructor. intros min max rnd Hmin Hmax Hle Hwidth.
  destruct (decide (min = max)) as [->|Hne].
  - exists max, rnd. split; [|lia].
    apply Source_Dur_degenerate. lia.
  - destruct (Source_Dur_draws min max rnd) as (v & g & _ & _ & Hdur & Hin);
      [done | done | lia | done |].
    exists (min + v), {| rand.r := g |}. split; [done | lia].
Qed.

End SourceProofs.

Lemma CounterRand_GoRandContract : spec.GoRandContract testing.CounterRand.
Proof.
  constructor; intros n g Hn; simpl.
  - by destruct (Z.leb_spec n 0); [|lia].
  - destruct (Z.leb_spec n 0); [lia|].
    eexists _, _. split; [done|]. by apply Z.mod_pos_bound.
  - destruct (Z.leb_spec n 0); [lia|].
    eexists _, _. split; [done|]. by apply Z.mod_pos_bound.
Qed.

(** C5 at a range wider than an int64.  [Dur(math.MinInt64, 0)] on the
    ChaCha8 source panics for every state of the stream: [max - min] wraps
    to [math.MinInt64] and [Int64N] refuses it.  So does [Dur] for a range
    from -150 to +150 years. *)
Theorem C5_Dur_panics_when_width_overflows (fuel : nat)
    (s : rand.Source chacha8rand.State) :
  rand.Source_Dur (GR := mathrand.ChaCha8_GoRand fuel) MinInt64 0 s
  = Panic "invalid argument to Int64N" ∧
  rand.Source_Dur (GR := mathrand.ChaCha8_GoRand fuel)
    (- (1314000 * Hour)) (1314000 * Hour) s
  = Panic "invalid argument to Int64N".
Proof. done. Qed.

(** C6.  The outputs of a source are a function of the seed and of the
    sequence of calls, so two runs from the same seed agree; and the
    source seeded with ["0123456789abcdef0123456789abcdef"] answers
    [Bool()], [Dur(1s, 1s)], [Dur(1s, 2s)], [Dur(0, 1h)] with [false],
    [1s], [1.684999282s] and [25m7.572021725s], whatever fuel the
    rejection loop is given. *)
Theorem C6_fixed_seed_fixed_outputs :
  (∀ (fuel : nat) (seed : rand.Seed) (calls : list spec.Call)
     (run1 run2 : result (list spec.Output)),
     run1 = spec.run (GR := mathrand.ChaCha8_GoRand fuel) calls
              (rand.NewSourceChaCha8 seed) →
     run2 = spec.run (GR := mathrand.ChaCha8_GoRand fuel) calls
              (rand.NewSourceChaCha8 seed) →
     run1 = run2) ∧
  (∀ fuel : nat,
     (seed ← rand.NewSeed "0123456789abcdef0123456789abcdef";
      spec.run (GR := mathrand.ChaCha8_GoRand fuel)
        [spec.CallBool; spec.CallDur Second Second;
         spec.CallDur Second (2 * Second); spec.CallDur 0 Hour]
        (rand.NewSourceChaCha8 seed))
     = Ok [spec.OutBool false; spec.OutDur Second;
           spec.OutDur (Second + 684999282);
           spec.OutDur (25 * Minute + 7 * Second + 572021725)]).
Proof.
  split.
  - intros fuel seed calls run1 run2 -> ->. done.
  - intros fuel. vm_compute. done.
Qed.

(** The second fixture of [TestSource]. *)
Example TestSource_second_seed (fuel : nat) :
  (seed ← rand.NewSeed "fedcba9876543210fedcba9876543210";
   spec.run (GR := mathrand.ChaCha8_GoRand fuel)
     [spec.CallBool; spec.CallDur Second Second;
      spec.CallDur Second (2 * Second); spec.CallDur 0 Hour]
     (rand.NewSourceChaCha8 seed))
  = Ok [spec.OutBool true; spec.OutDur Second;
        spec.OutDur (Second + 591265866);
        spec.OutDur (47 * Minute + 55 * Second + 22499822)].
Proof. vm_compute. done. Qed.

(** ** The middleware *)

Section MiddlewareProofs.
Context {Glob R S W H : Type}.
Context {GM : GlobMatcher Glob} {RP : httpsim.RandProvider R}.
Context {SL : httpsim.Sleeper S} {RW : httpsim.ResponseWriter W}.
Context {NH : httpsim.Handler H W}.

(** A request that matches no rule goes to the next handler as it came. *)
Lemma ServeHTTP_unmatched (m : httpsim.Middleware Glob R S H) (w : W)
    (r : httpsim.Request) :
  httpsim.Match r (httpsim.config m) = -1 →
  httpsim.ServeHTTP m w r = httpsim.forward m w r.
Proof.
  intros Hno. unfold httpsim.ServeHTTP. rewrite Hno.
  by rewrite bool_decide_eq_false_2 by (intros Hne; by apply Hne).
Qed.

(** The body of [ServeHTTP] once rule [i] is known to be the match. *)
Lemma ServeHTTP_matched (m : httpsim.Middleware Glob R S H) (w : W)
    (r : httpsim.Request)
    (i : nat) (res : config.Resource Glob) :
  httpsim.Match r (httpsim.config m) = Z.of_nat i →
  config.Resources (httpsim.config m) !! i = Some res →
  httpsim.ServeHTTP m w r =
  '(ctxInfo, m1, w1) ←
    match config.Resource_Effect res with
    | Some effect =>
        '(delay, replaced, m1, w1) ← httpsim.apply m w effect;
        Ok ({| httpsim.MatchedResourceIndex := Z.of_nat i;
               httpsim.Delay := delay; httpsim.Replaced := replaced |},
            m1, w1)
    | None =>
        Ok ({| httpsim.MatchedResourceIndex := Z.of_nat i;
               httpsim.Delay := 0; httpsim.Replaced := false |}, m, w)
    end;
  if httpsim.Replaced ctxInfo then Ok (w1, m1)
  else httpsim.forward m1 w1 (httpsim.WithCtxInfo r ctxInfo).
Proof.
  intros Hi Hres. unfold httpsim.ServeHTTP. rewrite Hi.
  rewrite bool_decide_eq_true_2 by lia.
  by rewrite Nat2Z.id, Hres.
Qed.


End MiddlewareProofs.


(** ** The README rule and the handler tests, run on the model *)

(** C1 at the README rule.  A DELETE to [/specific] is answered without
    invoking the next handler, with the configured body and content type,
    but with status 200: the body is written before [WriteHeader(404)], the
    write commits status 200, and the later [WriteHeader] changes nothing. *)
Theorem C1_README_replace_answers_200 (DetectContentType : string → string) :
  let rw := httptest.Recorder_ResponseWriter DetectContentType in
  let m := testing.NewSimulator
             {| config.Resources := [testing.README_rule] |}
             {| rand.r := {| testing.counter := 0 |} |} in
  ∃ w',
    httpsim.ServeHTTP m httptest.NewRecorder
      (testing.NewRequest "DELETE" "/specific") = Ok (w', m) ∧
    httptest.Code w' = 200 ∧
    httptest.Code w' ≠ config.StatusCode
      {| config.StatusCode := 404;
         config.Body := Some "Specific resource not found";
         config.Headers := {[ "Content-Type" := "text/plain" ]} |} ∧
    httptest.Body w' = "Specific resource not found" ∧
    httptest.snapHeader w' = {[ "Content-Type" := ["text/plain"] ]} ∧
    testing.invoked (httpsim.next m) = [].
Proof.
  intros rw m. eexists. split; [vm_compute; reflexivity|].
  repeat split; done.
Qed.

(** [TestHandleDur] *)
Example TestHandleDur :
  testing.served testing.delay_rule (testing.NewRequest "GET" "/")
  = Ok (200, [], "", Second + 394636475,
        [{| httpsim.MatchedResourceIndex := 0;
            httpsim.Delay := Second + 394636475;
            httpsim.Replaced := false |}]).
Proof. vm_compute. reflexivity. Qed.

(** [TestHandleReplace]: the test itself expects [http.StatusOK] for a
    replacement configured with status 500 and a body. *)
Example TestHandleReplace :
  testing.served testing.replace_rule (testing.NewRequest "GET" "/")
  = Ok (200,
        [("Content-Type", ["text/plain; charset=utf-8"]);
         ("X-Customadd", ["added"]); ("X-Customreplace", ["replaced"])],
        "replaced body", Second + 394636475, []).
Proof. vm_compute. reflexivity. Qed.

(** [TestHandleReplaceStatusCodeOnly] *)
Example TestHandleReplaceStatusCodeOnly :
  testing.served
    {| config.Methods := []; config.Path := config.GlobExpression_zero;
       config.Resource_Headers := []; config.Query := [];
       config.Resource_Effect := Some
         {| config.Delay := None;
            config.Effect_Replace := Some
              {| config.StatusCode := 204; config.Body := None;
                 config.Headers := ∅ |} |} |}
    (testing.NewRequest "GET" "/")
  = Ok (204, [], "", 0, []).
Proof. vm_compute. reflexivity. Qed.

(** [TestHandleNoMatch] *)
Example TestHandleNoMatch :
  testing.served
    {| config.Methods := ["DELETE"]; config.Path := config.GlobExpression_zero;
       config.Resource_Headers := []; config.Query := [];
       config.Resource_Effect :=
         config.Resource_Effect testing.replace_rule |}
    (testing.SetHeader "X-CustomReplace" "old value"
       (testing.NewRequest "GET" "/"))
  = Ok (200, [], "", 0,
        [{| httpsim.MatchedResourceIndex := -1; httpsim.Delay := 0;
            httpsim.Replaced := false |}]).
Proof. vm_compute. reflexivity. Qed.

(** ** The matcher tests, run on the model *)


(** The cases of [TestMatchResource], in the order of the test. *)
Example TestMatchResource :
  let G := testing.NewGlobExpression in
  let rule ms p hs qs : config.Resource testing.StarGlob :=
    {| config.Methods := ms; config.Path := p;
       config.Resource_Headers := hs; config.Query := qs;
       config.Resource_Effect := None |} in
  let any := config.GlobExpression_zero in
  let post := testing.NewRequest "POST" in
  [ httpsim.MatchResource (post "/x") (rule [] any [] []);
    httpsim.MatchResource (post "/foo/bar") (rule [] (G "/foo/bar") [] []);
    httpsim.MatchResource (testing.NewRequest "DELETE" "/x")
      (rule ["POST"; "DELETE"] any [] []);
    httpsim.MatchResource
      (testing.SetHeader "Content-Type" "application/json" (post "/"))
      (rule [] any [(G "Content-Type", [G "application/*"])] []);
    httpsim.MatchResource
      (testing.SetHeader "X-Custom" "ignore this header" (post "/"))
      (rule [] any [(G "Content-Type", [G "application/*"])] []);
    httpsim.MatchResource (testing.SetQuery "bazz" ["mazz"] (post "/"))
      (rule [] any [] [(G "foo", [G "bar"])]);
    httpsim.MatchResource (testing.NewRequest "GET" "/")
      (rule ["GET"] (G "/x*") [] []);
    httpsim.MatchResource (testing.NewRequest "DELETE" "/")
      (rule ["GET"; "POST"] any [] []);
    httpsim.MatchResource
      (testing.SetHeader "Content-Type" "application/javascript" (post "/"))
      (rule [] any [(G "Content-Type", [G "application/json"])] []);
    httpsim.MatchResource
      (testing.SetHeader "X-Custom" "foo,bar,baz" (post "/"))
      (rule [] any [(G "X-Custom", [G "foo"; G "bar"])] []);
    httpsim.MatchResource (testing.SetQuery "foo" ["mazz"] (post "/"))
      (rule [] any [] [(G "foo", [G "bar"])]);
    httpsim.MatchResource
      (testing.SetQuery "multivalparam" ["foo,bar,baz"] (post "/"))
      (rule [] any [] [(G "multivalparam", [G "foo"; G "bar"])]) ]
  = [true; true; true; true; true; true;
     false; false; false; false; false; false].
Proof. vm_compute. reflexivity. Qed.

(** [TestMatch] *)
Example TestMatch :
  let rule ms : config.Resource testing.StarGlob :=
    {| config.Methods := ms; config.Path := config.GlobExpression_zero;
       config.Resource_Headers := []; config.Query := [];
       config.Resource_Effect := None |} in
  let c := {| config.Resources := [rule ["GET"]; rule ["POST"]] |} in
  httpsim.Match (testing.NewRequest "GET" "/") c = 0 ∧
  httpsim.Match (testing.NewRequest "POST" "/") c = 1 ∧
  httpsim.Match (testing.NewRequest "DELETE" "/") c = -1.
Proof. done. Qed.

(** A parameter configured with one value pattern against a request that
    supplies two values, the first of which matches. *)
Example one_pattern_two_values :
  httpsim.MatchResource
    (testing.SetQuery "p" ["bar"; "other"] (testing.NewRequest "GET" "/"))
    {| config.Methods := []; config.Path := config.GlobExpression_zero;
       config.Resource_Headers := [];
       config.Query := [(testing.NewGlobExpression "p",
                         [testing.NewGlobExpression "bar"])];
       config.Resource_Effect := None |} = false.
Proof. vm_compute. reflexivity. Qed.

(** ** Iteration order of the Go maps

    Go iterates over a map in an unspecified order.  The verdict of
    [MatchResource] and, for header names with distinct canonical forms,
    the recorder after the header loop of [apply] do not depend on it. *)

Section IterationOrder.
Context {Glob : Type} {GM : GlobMatcher Glob}.

Lemma exactCardinality_Permutation
    (l l' : config.GlobMap (list (config.GlobExpression Glob)))
    (fields : gmap string (list string)) :
  l ≡ₚ l' → spec.exactCardinality l fields → spec.exactCardinality l' fields.
Proof.
  intros Hperm Hall name values field val Hin.
  apply (Hall name values field val). by rewrite Hperm.
Qed.

Lemma MatchResource_Permutation (r : httpsim.Request)
    (c : config.Resource Glob)
    (hs qs : config.GlobMap (list (config.GlobExpression Glob))) :
  hs ≡ₚ config.Resource_Headers c → qs ≡ₚ config.Query c →
  httpsim.MatchResource r
    {| config.Methods := config.Methods c; config.Path := config.Path c;
       config.Resource_Headers := hs; config.Query := qs;
       config.Resource_Effect := config.Resource_Effect c |}
  = httpsim.MatchResource r c.
Proof.
  intros Hh Hq. apply MatchResource_ext.
  unfold spec.ruleMatches, spec.methodAllowed. simpl.
  split; intros (Hm & Hp & Hhs & Hqs); (split; [done|split; [done|split]]).
  - by apply (exactCardinality_Permutation hs).
  - by apply (exactCardinality_Permutation qs).
  - by apply (exactCardinality_Permutation (config.Resource_Headers c)).
  - by apply (exactCardinality_Permutation (config.Query c)).
Qed.

End IterationOrder.

Section RecorderProofs.
Variable DetectContentType : string → string.

Lemma Header_Set_comm (k1 v1 k2 v2 : string)
    (rw : httptest.ResponseRecorder) :
  textproto.CanonicalMIMEHeaderKey k1 ≠ textproto.CanonicalMIMEHeaderKey k2 →
  httptest.Header_Set k1 v1 (httptest.Header_Set k2 v2 rw)
  = httptest.Header_Set k2 v2 (httptest.Header_Set k1 v1 rw).
Proof.
  intros Hne. unfold httptest.Header_Set. simpl. f_equal.
  by apply insert_insert_ne.
Qed.

Lemma setHeaders_Permutation (hs hs' : list (string * string)) :
  hs ≡ₚ hs' →
  NoDup (textproto.CanonicalMIMEHeaderKey <$> hs.*1) →
  ∀ rw : httptest.ResponseRecorder,
    httpsim.setHeaders
      (RW := httptest.Recorder_ResponseWriter DetectContentType) hs rw
    = httpsim.setHeaders
      (RW := httptest.Recorder_ResponseWriter DetectContentType) hs' rw.
Proof.
  induction 1 as [|x l l' Hperm IH|x y l|l l' l'' H1 IH1 H2 IH2];
    intros Hnd rw.
  - done.
  - simpl. apply IH. by inversion Hnd.
  - simpl. f_equal. apply Header_Set_comm.
    simpl in Hnd. inversion Hnd as [|? ? Hnotin _]; subst.
    intros Heq. apply Hnotin. rewrite Heq. by left.
  - rewrite IH1 by done. apply IH2. by rewrite <- H1.
Qed.



End RecorderProofs.

(** ** Further properties of the code *)

(** X1.  For [min >= max], [Dur] returns exactly [min] and does not draw:
    the source is returned as it was, whatever the generator behind it. *)
Theorem X1_Dur_degenerate_range_returns_min {G : Type} {GR : GoRand G}
    (min max : Z) (s : rand.Source G) :
  max <= min → rand.Source_Dur min max s = Ok (min, s).
Proof. apply Source_Dur_degenerate. Qed.

Lemma X1_Dur_degenerate_range_returns_min_witness :
  let s := rand.NewSourceChaCha8
             (list_byte_of_string "0123456789abcdef0123456789abcdef") in
  rand.Source_Dur (GR := mathrand.ChaCha8_GoRand 0) (2 * Second) Second s
  = Ok (2 * Second, s).
Proof.
  intros s.
  apply (X1_Dur_degenerate_range_returns_min
           (GR := mathrand.ChaCha8_GoRand 0) (2 * Second) Second s).
  unfold Second, Millisecond. lia.
Defined.

(** X2.  For [min < max] with [max - min <= math.MaxInt64], over a
    generator that keeps the contract of [Int64N], [Dur] returns [min]
    plus one draw from [[0, max-min)], a duration in [[min, max)]. *)
Theorem X2_Dur_proper_range_draws_within {G : Type} {GR : GoRand G}
    {GC : spec.GoRandContract G} (min max : Z) (s : rand.Source G) :
  int64 min → int64 max → min < max → max - min <= MaxInt64 →
  ∃ v g, Int64N (max - min) (rand.r s) = Ok (v, g) ∧
         0 <= v < max - min ∧
         rand.Source_Dur min max s = Ok (min + v, {| rand.r := g |}) ∧
         min <= min + v < max.
Proof. apply Source_Dur_draws. Qed.

Lemma X2_Dur_proper_range_draws_within_witness :
  let s := {| rand.r := {| testing.counter := 1394636475 |} |} in
  ∃ v g, Int64N (2 * Second - Second) (rand.r s) = Ok (v, g) ∧
         0 <= v < 2 * Second - Second ∧
         rand.Source_Dur Second (2 * Second) s
         = Ok (Second + v, {| rand.r := g |}) ∧
         Second <= Second + v < 2 * Second.
Proof.
  intros s.
  apply (X2_Dur_proper_range_draws_within
           (GC := CounterRand_GoRandContract) Second (2 * Second) s);
    unfold int64, MinInt64, MaxInt64, Second, Millisecond; lia.
Defined.



(** X5.  The verdict of [MatchResource] does not depend on the order in
    which the header and query maps of the rule are iterated. *)
Theorem X5_MatchResource_ignores_map_order {Glob : Type}
    {GM : GlobMatcher Glob} (r : httpsim.Request)
    (c : config.Resource Glob)
    (hs qs : config.GlobMap (list (config.GlobExpression Glob))) :
  hs ≡ₚ config.Resource_Headers c → qs ≡ₚ config.Query c →
  httpsim.MatchResource r
    {| config.Methods := config.Methods c; config.Path := config.Path c;
       config.Resource_Headers := hs; config.Query := qs;
       config.Resource_Effect := config.Resource_Effect c |}
  = httpsim.MatchResource r c.
Proof. apply MatchResource_Permutation. Qed.

Lemma X5_MatchResource_ignores_map_order_witness :
  let G := testing.NewGlobExpression in
  let e1 := (G "Content-Type", [G "application/*"]) in
  let e2 := (G "X-*", [G "foo"; G "bar"]) in
  let r := testing.SetHeader "X-Custom" "foo"
             (testing.NewRequest "POST" "/") in
  httpsim.MatchResource r
    {| config.Methods := []; config.Path := config.GlobExpression_zero;
       config.Resource_Headers := [e2; e1]; config.Query := [];
       config.Resource_Effect := None |}
  = httpsim.MatchResource r
    {| config.Methods := []; config.Path := config.GlobExpression_zero;
       config.Resource_Headers := [e1; e2]; config.Query := [];
       config.Resource_Effect := None |}.
Proof.
  intros G e1 e2 r.
  apply (X5_MatchResource_ignores_map_order r
           {| config.Methods := []; config.Path := config.GlobExpression_zero;
              config.Resource_Headers := [e1; e2]; config.Query := [];
              config.Resource_Effect := None |} [e2; e1] []); simpl.
  - apply perm_swap.
  - reflexivity.
Defined.

(** X7.  [Effect.Validate] rejects exactly the effects with neither a
    replacement nor a delay whose minimum is not zero; a rule without
    effect is valid. *)
Theorem X7_Effect_Validate_requires_a_sub_effect (e : option config.Effect) :
  (config.Effect_Validate e = Some config.ErrNoEffect ↔
   ∃ e', e = Some e' ∧ config.Effect_Replace e' = None ∧
         (config.Delay e' = None ∨
          ∃ d, config.Delay e' = Some d ∧ config.Min d = 0)) ∧
  (config.Effect_Validate e = None ∨
   config.Effect_Validate e = Some config.ErrNoEffect).
Proof.
  destruct e as [[[d|] [rep|]]|]; simpl;
    try destruct (Z.eqb_spec (config.Min d) 0); simpl;
    (split; [split|]); try (by left); try (by right); try done;
    try (intros (e' & [= <-] & Hr & Hd); simpl in *; try done;
         destruct Hd as [Hd | (d' & [= <-] & Hd)]; done);
    intros _; eexists; (split; [done|]); (split; [done|]);
    [right; by exists d | by left].
Qed.

(** ** Validation of methods, header names, status codes and glob maps *)

Ltac split_between :=
  unfold utf8.between in *;
  repeat match goal with
         | H : context [?a <=? ?b] |- _ => destruct (Z.leb_spec a b); simpl in H
         | |- context [?a <=? ?b] => destruct (Z.leb_spec a b); simpl
         | H : context [?a <? ?b] |- _ => destruct (Z.ltb_spec a b); simpl in H
         | |- context [?a <? ?b] => destruct (Z.ltb_spec a b); simpl
         | H : context [?a =? ?b] |- _ => destruct (Z.eqb_spec a b); simpl in H
         | |- context [?a =? ?b] => destruct (Z.eqb_spec a b); simpl
         end.

Lemma DecodeRune_ascii (b : Z) (rest : list Z) :
  b < 128 → utf8.DecodeRune (b :: rest) = (b, 1%nat).
Proof. intros Hb. simpl. by destruct (Z.ltb_spec b 128); [|lia]. Qed.

(** A byte outside ASCII never starts an ASCII rune. *)
Lemma DecodeRune_beyond_ascii (b : Z) (rest : list Z) :
  128 <= b → 128 <= (utf8.DecodeRune (b :: rest)).1.
Proof.
  intros Hb. unfold utf8.DecodeRune, utf8.RuneError.
  destruct (Z.ltb_spec b 128); [lia|].
  destruct (utf8.between 194 223 b) eqn:H2.
  { destruct rest as [|b1 rest]; simpl; [lia|].
    destruct (utf8.between 128 191 b1); simpl; [|lia].
    split_between; try done. Z.to_euclidean_division_equations. lia. }
  destruct (utf8.between 224 239 b) eqn:H3.
  { destruct rest as [|b1 [|b2 rest]]; simpl; [lia | lia |].
    match goal with |- context [if ?c then _ else _] => destruct c eqn:Hc end;
      simpl; [|lia].
    split_between; try done; Z.to_euclidean_division_equations; lia. }
  destruct (utf8.between 240 244 b) eqn:H4; [|simpl; lia].
  destruct rest as [|b1 [|b2 [|b3 rest]]]; simpl; [lia | lia | lia |].
  match goal with |- context [if ?c then _ else _] => destruct c eqn:Hc end;
    simpl; [|lia].
  split_between; try done; Z.to_euclidean_division_equations; lia.
Qed.

(** A check that flags every rune beyond ASCII finds a flagged rune in a
    string exactly when it finds a flagged byte. *)
Lemma existsb_runes (flagged : Z → bool) (bs : list Z) :
  (∀ r, 128 <= r → flagged r = true) →
  existsb flagged (utf8.runes_from 0 bs) = existsb flagged bs.
Proof.
  intros Hflag. induction bs as [|b rest IH]; [done|].
  destruct (Z.lt_ge_cases b 128) as [Hb|Hb].
  - change (utf8.runes_from 0 (b :: rest))
      with (let '(r, w) := utf8.DecodeRune (b :: rest) in
            r :: utf8.runes_from (w - 1) rest).
    rewrite DecodeRune_ascii by done. simpl. by rewrite IH.
  - pose proof (DecodeRune_beyond_ascii b rest Hb) as Hr.
    change (utf8.runes_from 0 (b :: rest))
      with (let '(r, w) := utf8.DecodeRune (b :: rest) in
            r :: utf8.runes_from (w - 1) rest).
    destruct (utf8.DecodeRune (b :: rest)) as [r w]. simpl in *.
    by rewrite (Hflag r Hr), (Hflag b Hb).
Qed.

Lemma existsb_false_Forall {A : Type} (f : A → bool) (P : A → Prop)
    (l : list A) :
  (∀ x, x ∈ l → (f x = false ↔ P x)) →
  (existsb f l = false ↔ Forall P l).
Proof.
  induction l as [|x l IH]; intros Hf; simpl.
  - split; [by constructor | done].
  - rewrite orb_false_iff, Forall_cons, IH.
    + rewrite (Hf x) by by left. done.
    + intros y Hy. apply Hf. by right.
Qed.

Section ValidationProofs.
Context {T : unicode.Tables}.

(** X3.  [HTTPMethod.UnmarshalText] stores the text it is given whether or
    not it is valid, and accepts exactly the non-empty texts made of the
    ASCII capital letters [A] to [Z]; every other text, the empty one and
    any text with a byte beyond ASCII included, gets
    [ErrInvalidHTTPMethod]. *)
Theorem X3_HTTPMethod_accepts_ASCII_capitals_only (text : string) :
  (validation.HTTPMethod_UnmarshalText text).1 = text ∧
  ((validation.HTTPMethod_UnmarshalText text).2 = None ↔
   text ≠ "" ∧ Forall (fun b => 65 <= b <= 90) (utf8.bytes text)) ∧
  ((validation.HTTPMethod_UnmarshalText text).2 = None ∨
   (validation.HTTPMethod_UnmarshalText text).2
   = Some validation.ErrInvalidHTTPMethod).
Proof.
  unfold validation.HTTPMethod_UnmarshalText, utf8.runes.
  destruct (String.eqb_spec text "") as [->|Hne]; simpl.
  { split; [done|]. split; [|by right]. split; [done | by intros [? _]]. }
  rewrite existsb_runes.
  2: { intros r Hr. unfold unicode.MaxASCII.
       by destruct (Z.ltb_spec 127 r); [|lia]. }
  match goal with |- context [existsb ?f ?l] =>
    assert (existsb f l = false ↔ Forall (fun b => 65 <= b <= 90) l)
      as Hchar
  end.
  { apply existsb_false_Forall. intros b _.
    unfold unicode.IsLetter, unicode.IsLower, unicode.MaxASCII.
    split_between; split; (done || lia). }
  match goal with |- context [existsb ?f ?l] => destruct (existsb f l) end;
    simpl.
  - split; [done|]. split; [|by right]. split; [done|].
    intros [_ Hall]. by apply Hchar in Hall.
  - split; [done|]. split; [|by left]. split; [|done].
    intros _. split; [done|]. by apply Hchar.
Qed.

(** X6.  [HeaderName.Validate] accepts exactly the non-empty names made of
    ASCII letters, ASCII digits and [-]; a name with any other byte, the
    space and every byte beyond ASCII included, gets
    [ErrInvalidHeaderName]. *)
Theorem X6_HeaderName_accepts_ASCII_letters_digits_dash (n : string) :
  (validation.HeaderName_Validate n = None ↔
   n ≠ "" ∧
   Forall (fun b => b = 45 ∨ 48 <= b <= 57 ∨ 65 <= b <= 90 ∨ 97 <= b <= 122)
          (utf8.bytes n)) ∧
  (validation.HeaderName_Validate n = None ∨
   validation.HeaderName_Validate n = Some validation.ErrInvalidHeaderName).
Proof.
  unfold validation.HeaderName_Validate, utf8.runes.
  destruct (String.eqb_spec n "") as [->|Hne]; simpl.
  { split; [|by right]. split; [done | by intros [? _]]. }
  rewrite existsb_runes.
  2: { intros r Hr. unfold unicode.MaxASCII.
       destruct (Z.ltb_spec 127 r); [|lia]. apply orb_true_r. }
  match goal with |- context [existsb ?f ?l] =>
    assert (existsb f l = false ↔
            Forall (fun b => b = 45 ∨ 48 <= b <= 57 ∨ 65 <= b <= 90
                             ∨ 97 <= b <= 122) l) as Hchar
  end.
  { apply existsb_false_Forall. intros b _.
    unfold unicode.IsLetter, unicode.IsDigit, unicode.MaxASCII.
    split_between; split; (done || lia). }
  match goal with |- context [existsb ?f ?l] => destruct (existsb f l) end;
    simpl.
  - split; [|by right]. split; [done|].
    intros [_ Hall]. by apply Hchar in Hall.
  - split; [|by left]. split; [|done].
    intros _. split; [done|]. by apply Hchar.
Qed.

End ValidationProofs.

Lemma StatusText_known (c : Z) :
  http.StatusText c ≠ "" ↔ c ∈ http.statusText.*1.
Proof.
  unfold http.StatusText.
  destruct (list_find (fun e => e.1 = c) http.statusText)
    as [[i [k text]]|] eqn:Hfind.
  - apply list_find_Some in Hfind as (Hi & Hk & _). simpl in Hk. subst k.
    assert ((c, text) ∈ http.statusText) as Hin
      by (by eapply list_elem_of_lookup_2).
    split.
    + intros _. apply list_elem_of_fmap. by exists (c, text).
    + intros _.
      assert (Forall (fun e => e.2 ≠ "") http.statusText) as Hall
        by (apply (bool_decide_unpack _); by vm_compute).
      by apply (proj1 (Forall_forall _ _) Hall (c, text)).
  - split; [done|]. intros Hin.
    apply list_elem_of_fmap in Hin as ([k text] & -> & Hin).
    apply list_find_None in Hfind. exfalso.
    by apply (proj1 (Forall_forall _ _) Hfind (k, text)).
Qed.

Lemma StatusCode_Validate_known (c : Z) :
  validation.StatusCode_Validate c = None ↔ c ∈ http.statusText.*1.
Proof.
  rewrite <- StatusText_known. unfold validation.StatusCode_Validate.
  destruct (String.eqb_spec (http.StatusText c) ""); split; done.
Qed.

Lemma StatusCode_Validate_range (c : Z) :
  validation.StatusCode_Validate c = None → 100 <= c <= 511.
Proof.
  intros Hc. apply StatusCode_Validate_known in Hc.
  assert (Forall (fun k => 100 <= k <= 511) http.statusText.*1) as Hall
    by (apply (bool_decide_unpack _); by vm_compute).
  by apply (proj1 (Forall_forall _ _) Hall c).
Qed.

Section GlobMapProofs.
Context {Glob : Type} {GP : validation.GlobPrinter Glob}.

Lemma GlobMap_Validate_loop_accepts (seen : gset string)
    (keys : list (config.GlobExpression Glob)) :
  validation.GlobMap_Validate_loop seen keys = Ok None ↔
  Forall (fun g => is_Some (config.glob g)) keys ∧
  NoDup (validation.printed keys) ∧
  ∀ s, s ∈ validation.printed keys → s ∉ seen.
Proof.
  revert seen. induction keys as [|g keys IH]; intros seen; simpl.
  - split; [|done]. intros _. split; [constructor|].
    split; [constructor|]. intros s Hs. by apply elem_of_nil in Hs.
  - unfold validation.printed. simpl. fold (validation.printed keys).
    destruct (config.glob g) as [gl|] eqn:Hg; simpl.
    + case_bool_decide as Hseen.
      * split; [done|]. intros (_ & _ & Hfresh).
        destruct (Hfresh (validation.glob_Sprint gl)); [by left | done].
      * rewrite IH, Forall_cons, NoDup_cons. split.
        -- intros (Hall & Hnd & Hfresh). split; [by split; [eexists|]|].
           split.
           ++ split; [|done]. intros Hin.
              apply (Hfresh _ Hin). apply elem_of_union. left.
              by apply elem_of_singleton.
           ++ intros s [->|Hs]%elem_of_cons; [done|].
              intros Hin. apply (Hfresh s Hs), elem_of_union. by right.
        -- intros ([_ Hall] & [Hnotin Hnd] & Hfresh).
           split; [done|]. split; [done|].
           intros s Hs [Heq%elem_of_singleton | Hin]%elem_of_union.
           ++ by subst s.
           ++ apply (Hfresh s); [by right | done].
    + split; [done|]. intros (Hall & _).
      apply Forall_cons in Hall as [[gl Hgl] _]. by rewrite Hg in Hgl.
Qed.

Lemma GlobMap_Validate_loop_outcome (seen : gset string)
    (keys : list (config.GlobExpression Glob)) :
  Forall (fun g => is_Some (config.glob g)) keys →
  validation.GlobMap_Validate_loop seen keys = Ok None ∨
  ∃ s, validation.GlobMap_Validate_loop seen keys
       = Ok (Some (validation.ErrDuplicateGlob s)) ∧
       s ∈ validation.printed keys.
Proof.
  revert seen. induction keys as [|g keys IH]; intros seen Hall; simpl.
  - by left.
  - apply Forall_cons in Hall as [[gl Hg] Hall].
    unfold validation.printed. simpl. fold (validation.printed keys).
    rewrite Hg. simpl. case_bool_decide.
    + right. eexists. split; [done|]. by left.
    + destruct (IH ({[validation.glob_Sprint gl]} ∪ seen) Hall)
        as [Hok | (s & Herr & Hs)]; [by left|].
      right. exists s. split; [done | by right].
Qed.

(** X12.  [GlobMap.Validate] returns nil exactly when every key was
    compiled and no two keys print alike; this does not depend on the order
    in which the map is visited.  When every key was compiled it never
    panics, and an error names a representation that occurs among the
    keys. *)
Theorem X12_GlobMap_Validate_rejects_equal_representations {V : Type}
    (h : config.GlobMap V) :
  (validation.GlobMap_Validate h = Ok None ↔
   Forall (fun g => is_Some (config.glob g)) h.*1 ∧
   NoDup (validation.printed h.*1)) ∧
  (∀ h' : config.GlobMap V, h' ≡ₚ h →
     (validation.GlobMap_Validate h' = Ok None ↔
      validation.GlobMap_Validate h = Ok None)) ∧
  (Forall (fun g => is_Some (config.glob g)) h.*1 →
   validation.GlobMap_Validate h = Ok None ∨
   ∃ s, validation.GlobMap_Validate h
        = Ok (Some (validation.ErrDuplicateGlob s)) ∧
        s ∈ validation.printed h.*1).
Proof.
  assert (∀ k : config.GlobMap V,
            validation.GlobMap_Validate k = Ok None ↔
            Forall (fun g => is_Some (config.glob g)) k.*1 ∧
            NoDup (validation.printed k.*1)) as Hspec.
  { intros k. unfold validation.GlobMap_Validate.
    rewrite GlobMap_Validate_loop_accepts. split.
    - by intros (Hall & Hnd & _).
    - intros [Hall Hnd]. split; [done|]. split; [done|].
      intros s _. apply not_elem_of_empty. }
  split; [apply Hspec|]. split.
  - intros h' Hperm. rewrite !Hspec.
    assert (h'.*1 ≡ₚ h.*1) as Hkeys by (by apply fmap_Permutation).
    unfold validation.printed. by rewrite Hkeys.
  - apply GlobMap_Validate_loop_outcome.
Qed.

End GlobMapProofs.

(** ** What [apply] and [ServeHTTP] leave behind *)

Section ApplyProofs.
Context {Glob R S W H : Type}.
Context {GM : GlobMatcher Glob} {RP : httpsim.RandProvider R}.
Context {SL : httpsim.Sleeper S} {RW : httpsim.ResponseWriter W}.
Context {NH : httpsim.Handler H W}.

(** What a returning [apply] did: it never touches the configuration or the
    next handler, reports a replacement exactly when one is configured,
    leaves the writer alone otherwise, and slept for the delay it reports
    exactly when a delay is configured. *)
Lemma apply_outcome (m m1 : httpsim.Middleware Glob R S H) (w w1 : W)
    (c : config.Effect) (delay : Z) (replaced : bool) :
  httpsim.apply m w c = Ok (delay, replaced, m1, w1) →
  httpsim.config m1 = httpsim.config m ∧
  httpsim.next m1 = httpsim.next m ∧
  (replaced = true ↔ is_Some (config.Effect_Replace c)) ∧
  (replaced = false → w1 = w) ∧
  ((config.Delay c = None ∧ delay = 0 ∧ m1 = m) ∨
   (∃ d, config.Delay c = Some d ∧
         httpsim.Dur (config.Min d) (config.Max d) (httpsim.rand m)
         = Ok (delay, httpsim.rand m1) ∧
         httpsim.sleeper m1 = httpsim.Sleep delay (httpsim.sleeper m))).
Proof.
  unfold httpsim.apply. intros Happly.
  assert (∀ (m0 : httpsim.Middleware Glob R S H) (d0 : Z),
    match config.Effect_Replace c with
    | Some rep =>
        w3 ← httpsim.WriteHeader (config.StatusCode rep)
               match config.Body rep with
               | Some body =>
                   httpsim.Write body
                     (httpsim.setHeaders (map_to_list (config.Headers rep)) w)
               | None => httpsim.setHeaders (map_to_list (config.Headers rep)) w
               end;
        Ok (d0, true, m0, w3)
    | None => Ok (d0, false, m0, w)
    end = Ok (delay, replaced, m1, w1) →
    d0 = delay ∧ m0 = m1 ∧
    (replaced = true ↔ is_Some (config.Effect_Replace c)) ∧
    (replaced = false → w1 = w)) as Hrest.
  { intros m0 d0 Heq. destruct (config.Effect_Replace c) as [rep|].
    - destruct (httpsim.WriteHeader _ _) as [w3| |]; simpl in Heq; try done.
      injection Heq as <- <- <- <-. repeat split; try done; by eexists.
    - injection Heq as <- <- <- <-. repeat split; try done;
        by intros [? ?]. }
  destruct (config.Delay c) as [d|] eqn:Hd.
  - destruct (httpsim.Dur (config.Min d) (config.Max d) (httpsim.rand m))
      as [[d0 rnd]| |] eqn:Hdur; simpl in Happly; try done.
    apply Hrest in Happly as (<- & <- & Hrep & Hw). simpl.
    repeat split; try done; try apply Hrep.
    right. by exists d.
  - simpl in Happly. apply Hrest in Happly as (<- & <- & Hrep & Hw).
    repeat split; try done; try apply Hrep. by left.
Qed.

End ApplyProofs.

Section OutcomeProofs.
Context {Glob R S W : Type}.
Context {GM : GlobMatcher Glob} {RP : httpsim.RandProvider R}.
Context {SL : httpsim.Sleeper S} {RW : httpsim.ResponseWriter W}.

(** The outcomes of a returning [ServeHTTP] over a next handler that
    records its invocations. *)
Lemma ServeHTTP_outcome
    (m m' : httpsim.Middleware Glob R S testing.MockNext) (w w' : W)
    (r : httpsim.Request) :
  httpsim.ServeHTTP m w r = Ok (w', m') →
  httpsim.config m' = httpsim.config m ∧
  ((∃ (i : nat) res eff rep,
      httpsim.Match r (httpsim.config m) = Z.of_nat i ∧
      config.Resources (httpsim.config m) !! i = Some res ∧
      config.Resource_Effect res = Some eff ∧
      config.Effect_Replace eff = Some rep ∧
      testing.invoked (httpsim.next m') = testing.invoked (httpsim.next m))
   ∨
   (∃ info,
      testing.invoked (httpsim.next m')
      = testing.invoked (httpsim.next m) ++ [httpsim.WithCtxInfo r info] ∧
      w' = w ∧
      0 <= httpsim.Match r (httpsim.config m) ∧
      httpsim.MatchedResourceIndex info = httpsim.Match r (httpsim.config m) ∧
      httpsim.Replaced info = false ∧
      ((httpsim.Delay info = 0 ∧ httpsim.sleeper m' = httpsim.sleeper m ∧
        httpsim.rand m' = httpsim.rand m) ∨
       httpsim.sleeper m'
       = httpsim.Sleep (httpsim.Delay info) (httpsim.sleeper m)))
   ∨
   (httpsim.Match r (httpsim.config m) = -1 ∧
    testing.invoked (httpsim.next m')
    = testing.invoked (httpsim.next m) ++ [r] ∧
    w' = w ∧ httpsim.sleeper m' = httpsim.sleeper m ∧
    httpsim.rand m' = httpsim.rand m)).
Proof.
  intros Hserve.
  destruct (MatchFrom_cases r (config.Resources (httpsim.config m)) 0)
    as [[Hno _] | (i & Hi & (res & Hres & _) & _)].
  - rewrite ServeHTTP_unmatched in Hserve by done.
    unfold httpsim.forward in Hserve. simpl in Hserve.
    injection Hserve as <- <-. simpl. split; [done|]. right. right. done.
  - assert (httpsim.Match r (httpsim.config m) = Z.of_nat i) as Hmatch
      by (unfold httpsim.Match; lia).
    rewrite (ServeHTTP_matched m w r i res Hmatch Hres) in Hserve.
    rewrite Hmatch.
    destruct (config.Resource_Effect res) as [eff|] eqn:Heff.
    + destruct (httpsim.apply m w eff) as [[[[delay replaced] m1] w1]| |]
        eqn:Happly; simpl in Hserve; try done.
      destruct (apply_outcome m m1 w w1 eff delay replaced Happly)
        as (Hconf & Hnext & Hrep & Hw & Hdelay).
      destruct replaced.
      * injection Hserve as <- <-. split; [done|]. left.
        destruct (proj1 Hrep eq_refl) as [rep Hr].
        exists i, res, eff, rep. by rewrite Hnext.
      * unfold httpsim.forward in Hserve. simpl in Hserve.
        injection Hserve as <- <-. simpl. split; [done|]. right. left.
        eexists. rewrite Hnext. split; [done|]. simpl.
        split; [by rewrite Hw|]. split; [lia|]. split; [done|].
        split; [done|].
        destruct Hdelay as [(_ & -> & ->) | (d & _ & _ & Hsleep)];
          [by left | by right].
    + simpl in Hserve. unfold httpsim.forward in Hserve. simpl in Hserve.
      injection Hserve as <- <-. simpl. split; [done|]. right. left.
      eexists. split; [done|]. simpl. split; [done|]. split; [lia|].
      split; [done|]. split; [done|]. by left.
Qed.

(** X9.  With a next handler that records its invocations, a returning
    [ServeHTTP] keeps the configuration and invokes the handler at most
    once.  When it does not invoke it, the matched rule configures a
    replacement.  When it does, the writer is passed on untouched; for a
    matched request the request carries the outcome with the index
    returned by [Match], not replaced, and a delay that is zero with nothing
    slept or else is the duration that was slept; an unmatched request is
    passed on as it came, with nothing drawn or slept. *)
Theorem X9_ServeHTTP_invokes_next_at_most_once
    (m m' : httpsim.Middleware Glob R S testing.MockNext) (w w' : W)
    (r : httpsim.Request) :
  httpsim.ServeHTTP m w r = Ok (w', m') →
  httpsim.config m' = httpsim.config m ∧
  ((∃ (i : nat) res eff rep,
      httpsim.Match r (httpsim.config m) = Z.of_nat i ∧
      config.Resources (httpsim.config m) !! i = Some res ∧
      config.Resource_Effect res = Some eff ∧
      config.Effect_Replace eff = Some rep ∧
      testing.invoked (httpsim.next m') = testing.invoked (httpsim.next m))
   ∨
   (∃ info,
      testing.invoked (httpsim.next m')
      = testing.invoked (httpsim.next m) ++ [httpsim.WithCtxInfo r info] ∧
      w' = w ∧
      0 <= httpsim.Match r (httpsim.config m) ∧
      httpsim.MatchedResourceIndex info = httpsim.Match r (httpsim.config m) ∧
      httpsim.Replaced info = false ∧
      ((httpsim.Delay info = 0 ∧ httpsim.sleeper m' = httpsim.sleeper m ∧
        httpsim.rand m' = httpsim.rand m) ∨
       httpsim.sleeper m'
       = httpsim.Sleep (httpsim.Delay info) (httpsim.sleeper m)))
   ∨
   (httpsim.Match r (httpsim.config m) = -1 ∧
    testing.invoked (httpsim.next m')
    = testing.invoked (httpsim.next m) ++ [r] ∧
    w' = w ∧ httpsim.sleeper m' = httpsim.sleeper m ∧
    httpsim.rand m' = httpsim.rand m)).
Proof. apply ServeHTTP_outcome. Qed.

(** X14.  What the next handler reads: when the incoming request carries
    no outcome and the handler has not been invoked before, every request
    the handler is invoked with has the method, path, headers and query of
    the incoming request, and [CtxInfoValue] of its context gives the index
    returned by [Match] ([-1] for an unmatched request) and "not
    replaced". *)
Theorem X14_next_handler_reads_the_index_of_Match
    (m m' : httpsim.Middleware Glob R S testing.MockNext) (w w' : W)
    (r : httpsim.Request) :
  httpsim.ServeHTTP m w r = Ok (w', m') →
  httpsim.ctx r = None →
  testing.invoked (httpsim.next m) = [] →
  ∀ r', r' ∈ testing.invoked (httpsim.next m') →
    httpsim.Method r' = httpsim.Method r ∧
    httpsim.URL_Path r' = httpsim.URL_Path r ∧
    httpsim.Header r' = httpsim.Header r ∧
    httpsim.URL_Query r' = httpsim.URL_Query r ∧
    httpsim.MatchedResourceIndex (httpsim.CtxInfoValue (httpsim.ctx r'))
    = httpsim.Match r (httpsim.config m) ∧
    httpsim.Replaced (httpsim.CtxInfoValue (httpsim.ctx r')) = false.
Proof.
  intros Hserve Hctx Hfresh r' Hin.
  destruct (ServeHTTP_outcome m m' w w' r Hserve)
    as [_ [(i & res & eff & rep & _ & _ & _ & _ & Hsame)
          | [(info & Hcall & _ & _ & Hindex & Hrep & _)
          | (Hno & Hcall & _)]]].
  - rewrite Hsame, Hfresh in Hin. by apply elem_of_nil in Hin.
  - rewrite Hcall, Hfresh in Hin. simpl in Hin.
    apply list_elem_of_singleton in Hin as ->. simpl. done.
  - rewrite Hcall, Hfresh in Hin. simpl in Hin.
    apply list_elem_of_singleton in Hin as ->. rewrite Hctx, Hno. done.
Qed.

End OutcomeProofs.

(** X9 on the rule of [TestHandleDur]: the handler is invoked once, with
    the outcome of rule 0 and the duration that was slept. *)
Lemma X9_ServeHTTP_invokes_next_at_most_once_witness :
  let rw := httptest.Recorder_ResponseWriter (fun _ => "") in
  let m := testing.NewSimulator
             {| config.Resources := [testing.delay_rule] |}
             {| rand.r := {| testing.counter := 394636475 |} |} in
  let r := testing.NewRequest "GET" "/" in
  let w := httptest.NewRecorder in
  let info := {| httpsim.MatchedResourceIndex := 0;
                 httpsim.Delay := Second + 394636475;
                 httpsim.Replaced := false |} in
  let m' := {| httpsim.rand := {| rand.r := {| testing.counter := 394636476 |} |};
               httpsim.config := httpsim.config m;
               httpsim.sleeper := {| testing.Cumulative := Second + 394636475 |};
               httpsim.next :=
                 {| testing.invoked := [httpsim.WithCtxInfo r info] |} |} in
  httpsim.config m' = httpsim.config m ∧
  ((∃ (i : nat) res eff rep,
      httpsim.Match r (httpsim.config m) = Z.of_nat i ∧
      config.Resources (httpsim.config m) !! i = Some res ∧
      config.Resource_Effect res = Some eff ∧
      config.Effect_Replace eff = Some rep ∧
      testing.invoked (httpsim.next m') = testing.invoked (httpsim.next m))
   ∨
   (∃ info,
      testing.invoked (httpsim.next m')
      = testing.invoked (httpsim.next m) ++ [httpsim.WithCtxInfo r info] ∧
      w = w ∧
      0 <= httpsim.Match r (httpsim.config m) ∧
      httpsim.MatchedResourceIndex info = httpsim.Match r (httpsim.config m) ∧
      httpsim.Replaced info = false ∧
      ((httpsim.Delay info = 0 ∧ httpsim.sleeper m' = httpsim.sleeper m ∧
        httpsim.rand m' = httpsim.rand m) ∨
       httpsim.sleeper m'
       = httpsim.Sleep (httpsim.Delay info) (httpsim.sleeper m)))
   ∨
   (httpsim.Match r (httpsim.config m) = -1 ∧
    testing.invoked (httpsim.next m')
    = testing.invoked (httpsim.next m) ++ [r] ∧
    w = w ∧ httpsim.sleeper m' = httpsim.sleeper m ∧
    httpsim.rand m' = httpsim.rand m)).
Proof.
  intros rw m r w info m'.
  apply (X9_ServeHTTP_invokes_next_at_most_once m m' w w r).
  reflexivity.
Defined.

Lemma DurRange_Validate_order (d : config.DurRange) :
  config.DurRange_Validate d = None → config.Min d <= config.Max d.
Proof.
  unfold config.DurRange_Validate.
  by destruct (Z.ltb_spec (config.Max d) (config.Min d)); [|lia].
Qed.

Section ServableProofs.
Context {Glob R S H : Type}.
Context {GM : GlobMatcher Glob} {RP : httpsim.RandProvider R}.
Context {SL : httpsim.Sleeper S}.
Context {NH : httpsim.Handler H httptest.ResponseRecorder}.
Variable DetectContentType : string → string.

Lemma apply_servable {RC : spec.RandProviderContract R}
    (m : httpsim.Middleware Glob R S H) (rw : httptest.ResponseRecorder)
    (e : config.Effect) :
  validation.effectValidated e →
  (∀ d, config.Delay e = Some d →
     int64 (config.Min d) ∧ int64 (config.Max d) ∧
     config.Max d - config.Min d <= MaxInt64) →
  ∃ out,
    httpsim.apply (RW := httptest.Recorder_ResponseWriter DetectContentType)
      m rw e = Ok out.
Proof.
  intros [Hdur Hcode] Hwidth. unfold httpsim.apply.
  assert (∃ dm, match config.Delay e with
                | Some d =>
                    '(delay, rnd) ←
                      httpsim.Dur (config.Min d) (config.Max d)
                        (httpsim.rand m);
                    Ok (delay,
                        {| httpsim.rand := rnd;
                           httpsim.config := httpsim.config m;
                           httpsim.sleeper :=
                             httpsim.Sleep delay (httpsim.sleeper m);
                           httpsim.next := httpsim.next m |})
                | None => Ok (0, m)
                end = Ok dm) as [[delay m1] ->].
  { destruct (config.Delay e) as [d|]; [|by eexists].
    destruct (Hwidth d eq_refl) as (Hmin & Hmax & Hw).
    specialize (Hdur d eq_refl).
    apply DurRange_Validate_order in Hdur.
    destruct (spec.Dur_within (config.Min d) (config.Max d) (httpsim.rand m))
      as (x & rnd & -> & _); try done.
    simpl. by eexists. }
  simpl. destruct (config.Effect_Replace e) as [rep|]; [|by eexists].
  specialize (Hcode rep eq_refl). apply StatusCode_Validate_range in Hcode.
  simpl. unfold httptest.WriteHeader.
  match goal with |- context [httptest.wroteHeader ?x] =>
    destruct (httptest.wroteHeader x) end; simpl; [by eexists|].
  destruct (Z.ltb_spec (config.StatusCode rep) 100); [lia|].
  destruct (Z.ltb_spec 999 (config.StatusCode rep)); [lia|].
  simpl. by eexists.
Qed.

(** X8.  No panic while serving: when every rule of the configuration is
    validated ([DurRange.Validate] and [StatusCode.Validate] pass) and the
    width of every delay range is an int64, the randomness provider keeps
    its contract and the next handler returns, [ServeHTTP] into a recorder
    returns for every request.  In particular a validated status code is
    one that [WriteHeader] accepts. *)
Theorem X8_validated_rules_are_served_without_panic
    {RC : spec.RandProviderContract R}
    (m : httpsim.Middleware Glob R S H) (rw : httptest.ResponseRecorder)
    (r : httpsim.Request) :
  Forall validation.servable (config.Resources (httpsim.config m)) →
  (∀ w r' h, ∃ w' h', httpsim.Handler_ServeHTTP w r' h = Ok (w', h')) →
  ∃ w' m',
    httpsim.ServeHTTP
      (RW := httptest.Recorder_ResponseWriter DetectContentType) m rw r
    = Ok (w', m').
Proof.
  intros Hvalid Hnext.
  assert (∀ (m0 : httpsim.Middleware Glob R S H)
            (w0 : httptest.ResponseRecorder) r0,
            ∃ w' m', httpsim.forward m0 w0 r0 = Ok (w', m')) as Hforward.
  { intros m0 w0 r0. unfold httpsim.forward.
    destruct (Hnext w0 r0 (httpsim.next m0)) as (w' & h' & ->).
    simpl. by eexists _, _. }
  destruct (MatchFrom_cases r (config.Resources (httpsim.config m)) 0)
    as [[Hno _] | (i & Hi & (res & Hres & _) & _)].
  - rewrite ServeHTTP_unmatched by done. apply Hforward.
  - assert (httpsim.Match r (httpsim.config m) = Z.of_nat i) as Hmatch
      by (unfold httpsim.Match; lia).
    rewrite (ServeHTTP_matched m rw r i res Hmatch Hres).
    destruct (config.Resource_Effect res) as [eff|] eqn:Heff; simpl.
    + assert (validation.servable res) as Hres_ok.
      { apply (proj1 (Forall_forall _ _) Hvalid).
        by eapply list_elem_of_lookup_2. }
      destruct (Hres_ok eff Heff) as [Hval Hwidth].
      destruct (apply_servable m rw eff Hval Hwidth)
        as ([[[delay replaced] m1] w1] & ->).
      simpl. destruct replaced; [by eexists _, _ | apply Hforward].
    + apply Hforward.
Qed.

End ServableProofs.

(** X8 on the rule of [TestHandleReplace]. *)
Lemma X8_validated_rules_are_served_without_panic_witness :
  ∃ w' m',
    httpsim.ServeHTTP
      (RW := httptest.Recorder_ResponseWriter (fun _ => ""))
      (testing.NewSimulator
         {| config.Resources := [testing.replace_rule] |}
         {| rand.r := {| testing.counter := 0 |} |})
      httptest.NewRecorder (testing.NewRequest "GET" "/")
    = Ok (w', m').
Proof.
  apply (X8_validated_rules_are_served_without_panic
           (RC := Source_RandProviderContract
                    (GC := CounterRand_GoRandContract))
           (fun _ => "")).
  - constructor; [|constructor].
    intros e [= <-]. split.
    + split.
      * intros d [= <-]. reflexivity.
      * intros rep [= <-]. reflexivity.
    + intros d [= <-]. simpl.
      unfold int64, MinInt64, MaxInt64, Second, Millisecond. lia.
  - intros w r' h. by eexists _, _.
Defined.

Section HeaderProofs.
Variable DetectContentType : string → string.




End HeaderProofs.


(** ** Rules and rule lists *)

Section RuleProofs.
Context {Glob : Type} {GM : GlobMatcher Glob}.

(** X11.  Constraints only narrow a rule: a request matched by a rule is
    matched by every rule with the same path whose header and query entries
    are among those of the first and whose method list is empty or contains
    its (non-empty) method list. *)
Theorem X11_fewer_constraints_match_more_requests (r : httpsim.Request)
    (c c' : config.Resource Glob) :
  config.Path c = config.Path c' →
  config.Methods c = [] ∨
    (config.Methods c' ≠ [] ∧ config.Methods c' ⊆ config.Methods c) →
  config.Resource_Headers c ⊆ config.Resource_Headers c' →
  config.Query c ⊆ config.Query c' →
  httpsim.MatchResource r c' = true →
  httpsim.MatchResource r c = true.
Proof.
  intros Hpath Hmethods Hh Hq.
  rewrite !MatchResource_ruleMatches.
  intros (Hm & Hp & Hhs & Hqs). split; [|split; [|split]].
  - destruct Hmethods as [Hnil | [Hne Hsub]]; [by left|].
    destruct Hm as [Hnil' | Hin]; [done|]. right. by apply Hsub.
  - by rewrite Hpath.
  - intros name values field val Hin. apply Hhs. by apply Hh.
  - intros name values field val Hin. apply Hqs. by apply Hq.
Qed.

Lemma MatchFrom_shift (r : httpsim.Request)
    (rules : list (config.Resource Glob)) (i : Z) :
  httpsim.MatchFrom i r rules =
  if httpsim.MatchFrom 0 r rules =? -1 then -1
  else i + httpsim.MatchFrom 0 r rules.
Proof.
  destruct (MatchFrom_cases r rules i) as [[-> Hnone] | (k & -> & Hk)];
    destruct (MatchFrom_cases r rules 0) as [[-> Hnone'] | (k' & -> & Hk')].
  - done.
  - destruct Hk' as [(res & Hres & Hm) _].
    by rewrite (Hnone k' res Hres) in Hm.
  - destruct Hk as [(res & Hres & Hm) _].
    by rewrite (Hnone' k res Hres) in Hm.
  - rewrite (firstMatch_unique _ _ _ _ Hk Hk').
    destruct (Z.eqb_spec (0 + Z.of_nat k') (-1)); lia.
Qed.

Lemma MatchFrom_app (r : httpsim.Request)
    (rules extra : list (config.Resource Glob)) (i : Z) :
  httpsim.MatchFrom i r (rules ++ extra) =
  if forallb (fun res => negb (httpsim.MatchResource r res)) rules
  then httpsim.MatchFrom (i + Z.of_nat (length rules)) r extra
  else httpsim.MatchFrom i r rules.
Proof.
  revert i. induction rules as [|res rules IH]; intros i; simpl.
  - f_equal. lia.
  - destruct (httpsim.MatchResource r res); simpl; [done|].
    rewrite IH. destruct (forallb _ rules); [|done]. f_equal. lia.
Qed.

Lemma MatchFrom_none (r : httpsim.Request)
    (rules : list (config.Resource Glob)) :
  httpsim.MatchFrom 0 r rules = -1 ↔
  forallb (fun res => negb (httpsim.MatchResource r res)) rules = true.
Proof.
  rewrite forallb_forall.
  destruct (MatchFrom_cases r rules 0) as [[-> Hnone] | (k & -> & Hk)].
  - split; [|done]. intros _ res Hin.
    apply list_elem_of_In, list_elem_of_lookup in Hin as [j Hj].
    by rewrite (Hnone j res Hj).
  - split; [lia|]. intros Hall. destruct Hk as [(res & Hres & Hm) _].
    assert (In res rules) as Hin
      by (by eapply list_elem_of_In, list_elem_of_lookup_2).
    apply Hall in Hin. by rewrite Hm in Hin.
Qed.

(** X13.  Appending rules to a configuration never changes the rule of a
    request that was matched before; a request that matched none gets the
    first matching appended rule, at its position after the old rules, or
    still none. *)
Theorem X13_Match_on_appended_rules (r : httpsim.Request)
    (rules extra : list (config.Resource Glob)) :
  let before := httpsim.Match r {| config.Resources := rules |} in
  let added := httpsim.Match r {| config.Resources := extra |} in
  let after := httpsim.Match r {| config.Resources := rules ++ extra |} in
  (before ≠ -1 → after = before) ∧
  (before = -1 → added = -1 → after = -1) ∧
  (before = -1 → added ≠ -1 → after = Z.of_nat (length rules) + added).
Proof.
  unfold httpsim.Match. simpl. rewrite MatchFrom_app.
  destruct (forallb _ rules) eqn:Hall.
  - apply MatchFrom_none in Hall. rewrite Hall, MatchFrom_shift.
    destruct (Z.eqb_spec (httpsim.MatchFrom 0 r extra) (-1)) as [->|Hne];
      repeat split; (done || lia).
  - assert (httpsim.MatchFrom 0 r rules ≠ -1) as Hne.
    { intros Heq. apply MatchFrom_none in Heq. by rewrite Heq in Hall. }
    repeat split; done.
Qed.

End RuleProofs.

Lemma X11_fewer_constraints_match_more_requests_witness :
  let G := testing.NewGlobExpression in
  let r := testing.SetHeader "Content-Type" "application/json"
             (testing.NewRequest "POST" "/api") in
  httpsim.MatchResource r
    {| config.Methods := []; config.Path := G "/*";
       config.Resource_Headers := [(G "Content-Type", [G "application/*"])];
       config.Query := []; config.Resource_Effect := None |} = true.
Proof.
  intros G r.
  apply (X11_fewer_constraints_match_more_requests r _
           {| config.Methods := ["POST"]; config.Path := G "/*";
              config.Resource_Headers :=
                [(G "Accept", [G "*"]);
                 (G "Content-Type", [G "application/*"])];
              config.Query := [(G "debug", [G "1"])];
              config.Resource_Effect := None |}).
  - reflexivity.
  - by left.
  - intros x Hx. simpl in *. apply elem_of_cons. by right.
  - intros x Hx. simpl in Hx. by apply elem_of_nil in Hx.
  - vm_compute. reflexivity.
Defined.

(** X14 on the rule of [TestHandleDur]: the handler reads index 0. *)
Lemma X14_next_handler_reads_the_index_of_Match_witness :
  let rw := httptest.Recorder_ResponseWriter (fun _ => "") in
  let m := testing.NewSimulator
             {| config.Resources := [testing.delay_rule] |}
             {| rand.r := {| testing.counter := 394636475 |} |} in
  let r := testing.NewRequest "GET" "/" in
  let r' := httpsim.WithCtxInfo r
              {| httpsim.MatchedResourceIndex := 0;
                 httpsim.Delay := Second + 394636475;
                 httpsim.Replaced := false |} in
  httpsim.Method r' = httpsim.Method r ∧
  httpsim.URL_Path r' = httpsim.URL_Path r ∧
  httpsim.Header r' = httpsim.Header r ∧
  httpsim.URL_Query r' = httpsim.URL_Query r ∧
  httpsim.MatchedResourceIndex (httpsim.CtxInfoValue (httpsim.ctx r'))
  = httpsim.Match r (httpsim.config m) ∧
  httpsim.Replaced (httpsim.CtxInfoValue (httpsim.ctx r')) = false.
Proof.
  intros rw m r r'.
  apply (X14_next_handler_reads_the_index_of_Match m
           {| httpsim.rand :=
                {| rand.r := {| testing.counter := 394636476 |} |};
              httpsim.config := httpsim.config m;
              httpsim.sleeper :=
                {| testing.Cumulative := Second + 394636475 |};
              httpsim.next := {| testing.invoked := [r'] |} |}
           httptest.NewRecorder httptest.NewRecorder r);
    try reflexivity.
  by left.
Defined.

(** ** The configuration tests, run on the model *)

(** [TestHTTPMethod]; the last input is ["IN\nVALID"]. *)
Example TestHTTPMethod :
  (fun text =>
     (validation.HTTPMethod_UnmarshalText (T := fixtures.ascii_only) text).2)
  <$> ["GET"; "HEAD"; "POST"; "PUT"; "PATCH"; "DELETE"; "CONNECT";
       "OPTIONS"; "TRACE"; "CUSTOM";
       "invalid"; ""; " "; "INVALID!"; "IN-VALID"; "IN_VALID";
       "IN" +:+ String (ascii_of_nat 10) "VALID"]
  = replicate 10 None
    ++ replicate 7 (Some validation.ErrInvalidHTTPMethod).
Proof. vm_compute. reflexivity. Qed.

(** [TestHeaderName] *)
Example TestHeaderName :
  validation.HeaderName_Validate (T := fixtures.ascii_only)
  <$> ["Content-Type"; "X-Custom"; ""; " "]
  = [None; None; Some validation.ErrInvalidHeaderName;
     Some validation.ErrInvalidHeaderName].
Proof. vm_compute. reflexivity. Qed.

(** [TestHTTPStatusCode]: the 62 codes the test expects to be valid, and
    the four it expects to be rejected. *)
Example TestHTTPStatusCode :
  Forall (fun c => validation.StatusCode_Validate c = None)
    [100; 101; 102; 103; 200; 201; 202; 203; 204; 205; 206; 207; 208; 226;
     300; 301; 302; 303; 304; 305; 307; 308;
     400; 401; 402; 403; 404; 405; 406; 407; 408; 409; 410; 411; 412; 413;
     414; 415; 416; 417; 418; 421; 422; 423; 424; 425; 426; 428; 429; 431;
     451; 500; 501; 502; 503; 504; 505; 506; 507; 508; 510; 511] ∧
  Forall (fun c => validation.StatusCode_Validate c
                   = Some (validation.ErrInvalidStatusCode c))
    [306; -400; 0; 1000].
Proof. split; repeat constructor. Qed.

(** [TestDurRange] *)
Example TestDurRange :
  config.DurRange_Validate
  <$> [{| config.Min := 0; config.Max := 0 |};
       {| config.Min := 1; config.Max := 1 |};
       {| config.Min := 10; config.Max := 11 |};
       {| config.Min := -10; config.Max := 1 |};
       {| config.Min := 1; config.Max := 0 |}]
  = [None; None; None; None; Some config.ErrMinGreaterMax].
Proof. reflexivity. Qed.

(** Two header names that both pass [HeaderName.Validate] and differ only
    in case are distinct keys of the replacement's header map but one
    header of the response: which value is sent depends on the order in
    which the map is visited. *)
Example header_names_differing_in_case_collide :
  let rw := httptest.Recorder_ResponseWriter (fun _ => "") in
  validation.HeaderName_Validate (T := fixtures.ascii_only) "x-a" = None ∧
  validation.HeaderName_Validate (T := fixtures.ascii_only) "X-A" = None ∧
  httptest.Header_Get "X-A"
    (httptest.HeaderMap
       (httpsim.setHeaders [("x-a", "1"); ("X-A", "2")] httptest.NewRecorder))
  = "2" ∧
  httptest.Header_Get "X-A"
    (httptest.HeaderMap
       (httpsim.setHeaders [("X-A", "2"); ("x-a", "1")] httptest.NewRecorder))
  = "1".
Proof. vm_compute. done. Qed.

(** ** Delay followed by replacement *)

Section DelayReplaceProofs.
Context {Glob R S H : Type}.
Context {GM : GlobMatcher Glob} {RP : httpsim.RandProvider R}.
Context {SL : httpsim.Sleeper S}.
Context {NH : httpsim.Handler H httptest.ResponseRecorder}.
Variable DetectContentType : string → string.


End DelayReplaceProofs.

